(** * GetPaper: the PubMed spider and the DOI-file loader

    A shallow embedding of [getpaper/spiders/PubMed.py], of
    [getTotalPaperNum] from [getpaper/spiders/ACS.py] and of
    [downloadByDoiFile] and [downloadAll] from [getpaper/GUI/menu.py],
    with the properties of the crawl-and-collect pipeline proved over
    it.

    Conventions.
    - A Python [str] is a Rocq [string] holding its UTF-8 bytes; the
      literals of the source are spelled as they are there.
    - A Python [int] is a [Z]; positions produced by [enumerate] are [nat].
    - A coroutine is a function from the spider's state to an [outcome]
      and the state it leaves; what the network answers is an explicit
      parameter of type [Net].
    - Logging leaves no trace, and neither do the delays of
      [asyncio.sleep]: the order in which concurrent tasks complete is
      arbitrary instead. *)

From Stdlib Require Import ZArith Lia String Ascii List.
From stdpp Require Import base option list sorting strings gmap.
Import ListNotations.

Local Open Scope string_scope.
Local Open Scope list_scope.
Local Open Scope Z_scope.

(** ** Python's string methods *)

Module Py.

(** [str.isspace] on one character of ASCII text: tab, line feed, vertical
    tab, form feed, carriage return, the four separators 0x1c-0x1f and the
    blank. On ASCII text [strip], [split] and the pattern [\s] below are
    Python's. Python knows further white space outside ASCII (U+0085,
    U+00A0, U+1680, U+2000-U+200A, U+2028, U+2029, U+202F, U+205F,
    U+3000), which takes more than one byte in UTF-8 and is not recognised
    here: a statement about text that comes from a user's file is made
    for ASCII text ([ascii_text] below). *)
Definition is_space (c : ascii) : bool :=
  let n := nat_of_ascii c in
  ((9 <=? n)%nat && (n <=? 13)%nat)
  || ((28 <=? n)%nat && (n <=? 31)%nat)
  || (n =? 32)%nat.

(** [s.lstrip()] *)
Fixpoint lstrip (s : string) : string :=
  match s with
  | EmptyString => EmptyString
  | String c s' => if is_space c then lstrip s' else s
  end.

(** [s.rstrip()]: a character is dropped when it is white space and
    nothing but white space follows it. *)
Fixpoint rstrip (s : string) : string :=
  match s with
  | EmptyString => EmptyString
  | String c s' =>
      match rstrip s' with
      | EmptyString => if is_space c then EmptyString else String c EmptyString
      | r => String c r
      end
  end.

(** [s.strip()] *)
Definition strip (s : string) : string := rstrip (lstrip s).

(** [s.split()] with no separator: the maximal runs of characters that
    are not white space. [cur] is the run being read, reversed. *)
Fixpoint split_go (cur : list ascii) (s : string) : list string :=
  match s with
  | EmptyString =>
      match cur with
      | [] => []
      | _ => [string_of_list_ascii (rev cur)]
      end
  | String c s' =>
      if is_space c then
        match cur with
        | [] => split_go [] s'
        | _ => string_of_list_ascii (rev cur) :: split_go [] s'
        end
      else split_go (c :: cur) s'
  end.

Definition split (s : string) : list string := split_go [] s.

(** [s.startswith(p)] *)
Definition startswith (p s : string) : bool := String.prefix p s.

(** [s.endswith(p)] *)
Definition endswith (p s : string) : bool :=
  String.prefix (String.rev p) (String.rev s).

(** [sep.join(l)] *)
Definition join (sep : string) (l : list string) : string :=
  String.concat sep l.

(** [s.replace(c, e)] for a pattern [c] of one character and [e] the
    empty string. *)
Fixpoint remove_char (c : ascii) (s : string) : string :=
  match s with
  | EmptyString => EmptyString
  | String d s' =>
      if Ascii.eqb c d then remove_char c s' else String d (remove_char c s')
  end.

(** [re.sub] of the pattern [\s+] by the empty string: every white-space
    character goes. *)
Fixpoint sub_spaces (s : string) : string :=
  match s with
  | EmptyString => EmptyString
  | String c s' => if is_space c then sub_spaces s' else String c (sub_spaces s')
  end.

(** [re.sub] of the pattern [\s{2,}] by the empty string: every maximal
    run of two or more white-space characters goes, a lone one stays. [held] is the first
    character of the run being read, kept back until the run's length is
    known; [dropping] says the run is already two long. *)
Fixpoint sub_space_runs_go (held : option ascii) (dropping : bool) (s : string)
  : string :=
  match s with
  | EmptyString =>
      match held with
      | Some h => String h EmptyString
      | None => EmptyString
      end
  | String c s' =>
      if is_space c then
        if dropping then sub_space_runs_go None true s'
        else match held with
             | Some _ => sub_space_runs_go None true s'
             | None => sub_space_runs_go (Some c) false s'
             end
      else
        match held with
        | Some h => String h (String c (sub_space_runs_go None false s'))
        | None => String c (sub_space_runs_go None false s')
        end
  end.

Definition sub_space_runs (s : string) : string :=
  sub_space_runs_go None false s.

(** The truth value of a [str]: it is not empty. *)
Definition truthy (s : string) : bool :=
  match s with
  | EmptyString => false
  | String _ _ => true
  end.

(** [l[:n]] *)
Definition slice_to {A} (l : list A) (n : Z) : list A :=
  if 0 <=? n then firstn (Z.to_nat n) l
  else firstn (length l - Z.to_nat (- n))%nat l.

(** A value stored in the spider's request payload. *)
Inductive value :=
| Str (s : string)
| Int (n : Z).

End Py.

(** ** Exceptions and the outcome of a call *)

Inductive exn :=
| TimeoutError                  (* asyncio.exceptions.TimeoutError *)
| TipException (msg : string)   (* getpaper.utils.TipException *)
| AttributeError
| KeyError
| TypeError
| UnboundLocalError
| ClientError (what : string)   (* any other Exception of the HTTP client *)
| CancelledError.               (* a BaseException that is no Exception *)

(** [getpaper.utils] is not among the sources at hand: whether its
    [TipException] derives from [Exception] is left as a parameter. *)
Class Utils := { TipException_is_Exception : bool }.

(** [isinstance(e, Exception)] *)
Definition is_Exception `{Utils} (e : exn) : bool :=
  match e with
  | TipException _ => TipException_is_Exception
  | CancelledError => false
  | _ => true
  end.

(** How a call ends: it returns, it raises, or it is held in
    [PriorityQueue.put] on a full queue, waiting for a consumer that is
    not part of this model. *)
Inductive outcome (A : Type) :=
| Ret (a : A)
| Raise (e : exn)
| Blocked.
Arguments Ret {A} a.
Arguments Raise {A} e.
Arguments Blocked {A}.

(** ** What the network answers *)

Inductive response (A : Type) :=
| Fails (e : exn)   (* the request, or reading its body, raises *)
| Html (page : A).  (* the page, as BeautifulSoup presents it *)
Arguments Fails {A} e.
Arguments Html {A} page.

(** A page of [base_url] with search parameters, reduced to the elements
    the spider looks for. *)
Record search_page := {
  (* is there a span.single-result-redirect-message *)
  single_result_redirect_message : bool;
  (* div.results-amount when present, with the text of its span if any *)
  results_amount : option (option string);
  (* the text of pre.search-results-chunk when present *)
  search_results_chunk : option string
}.

(** The first link ([tag.a]) of an element: there is none, it has no href,
    or its href. *)
Inductive first_link :=
| NoLink
| NoHref
| Href (href : string).

(** The main.article-details element of a paper's page. *)
Record article_details := {
  heading_title : option string;              (* h1.heading-title *)
  cit : option string;                        (* span.cit *)
  full_view_journal_trigger : option string;  (* button#full-view-journal-trigger *)
  (* the names in the first five span.authors-list-item that hold a link,
     as a set, in the order in which the interpreter iterates that set *)
  authors_list_items : list string;
  abstract_content : option string;           (* .abstract-content.selected *)
  doi_link : option string;                   (* a[data-ga-action=DOI] *)
  (* .full-text-links-list when present, with its first link *)
  full_text_links_list : option first_link
}.

Record detail_page := { main_article_details : option article_details }.

Record Net := {
  get_search : gmap string Py.value -> response search_page;
  get_detail : string -> response detail_page
}.

Inductive request :=
| GetSearch (params : gmap string Py.value)
| GetDetail (url : string).

(** ** The result queue *)

(** The tuple [(title, authors, date, publication, abstract, doi, web)]. *)
Record paper := {
  title : string;
  authors : string;
  date : string;
  publication : string;
  abstract : string;
  doi : string;
  web : string
}.

Definition entry : Type := nat * paper.

(** [queue.PriorityQueue], from its documented contract: [get] hands out a
    lowest entry, [put] waits while [maxsize > 0] and the queue holds
    [maxsize] entries or more. The entries are kept in ascending order of
    their index. The tasks of one run carry different indices, so the
    second component of an entry does not decide a comparison among them;
    entries of equal index are kept in their order of arrival. *)
Record PriorityQueue := {
  maxsize : Z;
  queue : list entry
}.

Definition full (q : PriorityQueue) : bool :=
  (0 <? maxsize q) && (maxsize q <=? Z.of_nat (length (queue q))).

Fixpoint insert_entry (e : entry) (l : list entry) : list entry :=
  match l with
  | [] => [e]
  | x :: l' => if (fst e <? fst x)%nat then e :: l else x :: insert_entry e l'
  end.

(** [q.put(e)]; [None] when the call would wait. *)
Definition put (e : entry) (q : PriorityQueue) : option PriorityQueue :=
  if full q then None
  else Some {| maxsize := maxsize q; queue := insert_entry e (queue q) |}.

(** [q.get()]; [None] when the call would wait. *)
Definition get (q : PriorityQueue) : option (entry * PriorityQueue) :=
  match queue q with
  | [] => None
  | e :: l => Some (e, {| maxsize := maxsize q; queue := l |})
  end.

(** [[q.get() for _ in range(n)]], as far as it goes without waiting. *)
Fixpoint read_out (n : nat) (q : PriorityQueue) : list entry :=
  match n with
  | O => []
  | S n' =>
      match get q with
      | None => []
      | Some (e, q') => e :: read_out n' q'
      end
  end.

Definition set_maxsize (m : Z) (q : PriorityQueue) : PriorityQueue :=
  {| maxsize := m; queue := queue q |}.

(** ** spiders/PubMed.py *)

Module PubMed.

Import Py.

Definition base_url : string := "https://pubmed.ncbi.nlm.nih.gov/".

(** The attribute [self.session]: [None] after [__init__], a client
    session once one is opened, absent after [del self.session]. *)
Inductive session_attr :=
| SessionNone
| SessionOpen
| SessionDeleted.

(** The spider object, with the trace [sent] of the requests it has issued
    (oldest first). The queue the caller passes to [getAllPapers] is the
    object held in [result_queue]: the caller reads it there. *)
Record Spider := {
  data : gmap string value;
  result_queue : option PriorityQueue;
  session : session_attr;
  sent : list request
}.

Definition set_data (d : gmap string value) (sp : Spider) : Spider :=
  {| data := d; result_queue := result_queue sp;
     session := session sp; sent := sent sp |}.

Definition set_result_queue (q : option PriorityQueue) (sp : Spider) : Spider :=
  {| data := data sp; result_queue := q;
     session := session sp; sent := sent sp |}.

Definition set_session (s : session_attr) (sp : Spider) : Spider :=
  {| data := data sp; result_queue := result_queue sp;
     session := s; sent := sent sp |}.

Definition send (r : request) (sp : Spider) : Spider :=
  {| data := data sp; result_queue := result_queue sp;
     session := session sp; sent := sent sp ++ [r] |}.

(** [Spider.parseData] *)
Definition parseData (keyword start_year end_year author journal sorting : string)
  : gmap string value :=
  let data : gmap string value := ∅ in
  let term := [keyword] in
  let term :=
    if truthy start_year && truthy end_year
    then term ++ [start_year +:+ ":" +:+ end_year +:+ "[dp]"] else term in
  let term := if truthy author then term ++ [author +:+ "[author]"] else term in
  let term := if truthy journal then term ++ [journal +:+ "[journal]"] else term in
  let data := <["term" := Str (join " AND " term)]> data in
  let data :=
    if startswith "日期" sorting then <["sort" := Str "date"]> data else data in
  let data :=
    if endswith "逆序" sorting then <["sort_order" := Str "asc"]> data else data in
  data.

(** [Spider.getTotalPaperNum]. The request goes through a session of its
    own, opened and closed by the [async with]. *)
Definition getTotalPaperNum (net : Net) (sp : Spider) : outcome string * Spider :=
  let sp := set_data (<["format" := Str "summary"]> (data sp)) sp in
  let sp := send (GetSearch (data sp)) sp in
  match get_search net (data sp) with
  | Fails TimeoutError => (Raise (TipException "连接超时"), sp)
  | Fails e => (Raise e, sp)
  | Html bs =>
      if single_result_redirect_message bs then (Ret ("共找到" +:+ "1" +:+ "篇"), sp)
      else
        match results_amount bs with
        | None => (Raise AttributeError, sp)    (* None has no .span *)
        | Some (Some text) =>
            (Ret ("共找到" +:+ remove_char "," text +:+ "篇"), sp)
        | Some None => (Ret ("共找到" +:+ "0" +:+ "篇"), sp)
        end
  end.

(** The row put on the queue when a listing page has no identifiers (a
    list of seven strings in the source). *)
Definition not_found_row : paper :=
  let s := "Not found any papers" in
  {| title := s; authors := s; date := s; publication := s;
     abstract := s; doi := s; web := s |}.

(** The [while] loop of [getPMIDs]. The result is how the loop ends
    ([Ret tt] when its condition fails or at [break]), [pmid_list] and the
    spider; [None] when [fuel] runs out. *)
Fixpoint fetch_pages (fuel : nat) (net : Net) (num : Z)
    (pmid_list : list string) (sp : Spider)
  : option (outcome unit * list string * Spider) :=
  match fuel with
  | O => None
  | S fuel' =>
      match data sp !! "page" with
      | None => Some (Raise KeyError, pmid_list, sp)
      | Some (Str _) => Some (Raise TypeError, pmid_list, sp)
      | Some (Int page) =>
          if page <=? (num - 1) / 200 + 1 then
            match session sp with
            | SessionOpen =>
                let sp := send (GetSearch (data sp)) sp in
                match get_search net (data sp) with
                | Fails e => Some (Raise e, pmid_list, sp)
                | Html bs =>
                    match search_results_chunk bs with
                    | None =>
                        match result_queue sp with
                        | None => Some (Raise AttributeError, pmid_list, sp)
                        | Some q =>
                            let q := set_maxsize 1 q in
                            match put (0%nat, not_found_row) q with
                            | None =>
                                Some (Blocked, pmid_list,
                                      set_result_queue (Some q) sp)
                            | Some q' =>
                                Some (Raise (TipException "未找到相关文献"),
                                      pmid_list,
                                      set_result_queue (Some q') sp)
                            end
                        end
                    | Some text =>
                        let result := split text in
                        let pmid_list := pmid_list ++ result in
                        if (length result =? 1)%nat
                        then Some (Ret tt, pmid_list, sp)
                        else
                          fetch_pages fuel' net num pmid_list
                            (set_data (<["page" := Int (page + 1)]> (data sp)) sp)
                    end
                end
            | _ => Some (Raise AttributeError, pmid_list, sp)
            end
          else Some (Ret tt, pmid_list, sp)
      end
  end.

(** The [try] block of [getPMIDs], entered after the update of the
    payload: how it ends, [pmid_list] and the spider. *)
Definition getPMIDs_try (net : Net) (num : Z) (sp : Spider)
  : option (outcome unit * list string * Spider) :=
  let sp :=
    set_data (<["format" := Str "pmid"]>
                (<["page" := Int 1]> (<["size" := Str "200"]> (data sp)))) sp in
  fetch_pages (S (Z.to_nat ((num - 1) / 200 + 1))) net num [] sp.

(** [Spider.getPMIDs]. An exception of the [try] block goes to the
    [except] clauses: a timeout is answered by raising [TipException], any
    other Exception is logged. Then the [finally] clause runs, and its
    [return] ends the call whatever was about to happen, a pending
    exception included. *)
Definition getPMIDs `{Utils} (net : Net) (num : Z) (sp : Spider)
  : option (outcome (list string) * Spider) :=
  match getPMIDs_try net num sp with
  | None => None
  | Some (body, pmid_list, sp) =>
      let handled : outcome unit :=
        match body with
        | Raise TimeoutError => Raise (TipException "连接超时")
        | Raise e => if is_Exception e then Ret tt else Raise e
        | _ => body
        end in
      match handled with
      | Blocked => Some (Blocked, sp)
      | _ => Some (Ret (slice_to pmid_list num), sp)
      end
  end.

(** The record of a paper whose page could not be fetched. *)
Definition error_paper (url : string) : paper :=
  {| title := "Error"; authors := "Error"; date := "Error";
     publication := "Error"; abstract := "Error"; doi := "Error";
     web := url |}.

(** The [else] clause of [getPagesInfo], up to the look-up of the
    full-text link. *)
Definition parse_details (content : article_details) (url : string) : paper :=
  {| title := match heading_title content with
              | Some text => sub_space_runs text
              | None => "No Title"
              end;
     date := match cit content with
             | Some text => text
             | None => "No date"
             end;
     publication := match full_view_journal_trigger content with
                    | Some text => sub_spaces text
                    | None => "No publication"
                    end;
     authors := join "; " (authors_list_items content);
     abstract := match abstract_content content with
                 | Some text => sub_space_runs text
                 | None => "No Abstract"
                 end;
     doi := match doi_link content with
            | Some text => sub_spaces text
            | None => EmptyString
            end;
     web := url |}.

Definition set_web (url : string) (p : paper) : paper :=
  {| title := title p; authors := authors p; date := date p;
     publication := publication p; abstract := abstract p; doi := doi p;
     web := url |}.

(** The [try], [except] and [else] clauses of [getPagesInfo]: the local
    variables the [finally] clause will read ([None] while [title] is not
    bound) and the exception left pending, if any. *)
Definition fetch_details `{Utils} (fetched : response detail_page) (url : string)
  : option paper * option exn :=
  match fetched with
  | Fails e =>
      if is_Exception e then (Some (error_paper url), None) else (None, Some e)
  | Html bs =>
      match main_article_details bs with
      | None => (None, Some AttributeError)     (* None has no .find *)
      | Some content =>
          let p := parse_details content url in
          match full_text_links_list content with
          | None => (Some p, None)
          | Some (Href href) => (Some (set_web href p), None)
          | Some NoLink => (Some p, Some TypeError)   (* tag.a is None *)
          | Some NoHref => (Some p, Some KeyError)    (* tag.a has no href *)
          end
      end
  end.

(** [Spider.getPagesInfo], from the moment its sleep is over. *)
Definition getPagesInfo `{Utils} (net : Net) (index : nat) (pmid : string)
    (sp : Spider) : outcome unit * Spider :=
  let url := base_url +:+ pmid in
  let '(fetched, sp) :=
    match session sp with
    | SessionOpen => (get_detail net url, send (GetDetail url) sp)
    | _ => (Fails AttributeError, sp)
    end in
  let '(locals, pending) := fetch_details fetched url in
  (* finally *)
  match result_queue sp with
  | None => (Raise AttributeError, sp)
  | Some q =>
      match locals with
      | None => (Raise UnboundLocalError, sp)
      | Some p =>
          match put (index, p) q with
          | None => (Blocked, sp)
          | Some q' =>
              (match pending with
               | None => Ret tt
               | Some e => Raise e
               end, set_result_queue (Some q') sp)
          end
      end
  end.

(** [asyncio.gather] over the tasks. The tasks run interleaved on one
    event loop. What a task does to the spider (its request, its [put]) is
    placed at the moment the task completes, and [pick] names, among the
    tasks still pending, the one that completes next: every order of
    completion is a choice of [pick]. When a task raises, [gather] raises
    at once and the tasks still pending are abandoned with the event
    loop. *)
Fixpoint gather_go `{Utils} (pick : list (nat * string) -> nat) (net : Net)
    (n : nat) (pending : list (nat * string)) (sp : Spider)
  : outcome unit * Spider :=
  match n with
  | O => (Ret tt, sp)
  | S n' =>
      let k := (pick pending mod length pending)%nat in
      match pending !! k with
      | None => (Ret tt, sp)
      | Some (index, pmid) =>
          match getPagesInfo net index pmid sp with
          | (Ret _, sp) => gather_go pick net n' (delete k pending) sp
          | stop => stop
          end
      end
  end.

Definition gather `{Utils} (pick : list (nat * string) -> nat) (net : Net)
    (tasks : list (nat * string)) (sp : Spider) : outcome unit * Spider :=
  gather_go pick net (length tasks) tasks sp.

(** [Spider.getAllPapers] *)
Definition getAllPapers `{Utils} (pick : list (nat * string) -> nat) (net : Net)
    (result_queue : PriorityQueue) (num : Z) (sp : Spider)
  : option (outcome unit * Spider) :=
  let sp := set_result_queue (Some result_queue) sp in
  let num := Z.max num 1 in
  let sp :=
    match session sp with
    | SessionOpen => sp
    | _ => set_session SessionOpen sp
    end in
  match getPMIDs net num sp with
  | None => None
  | Some (Ret pmids, sp) =>
      let tasks := imap (fun index pmid => (index, pmid)) pmids in
      match gather pick net tasks sp with
      | (Ret _, sp) => Some (Ret tt, set_session SessionDeleted sp)
      | stop => Some stop
      end
  | Some (Raise e, sp) => Some (Raise e, sp)
  | Some (Blocked, sp) => Some (Blocked, sp)
  end.

End PubMed.

(** ** spiders/ACS.py *)

Module ACS.

Import Py.

(** A page of the ACS search, reduced to span.result__count: the element
    when present, with its [.string] (none when the span does not hold
    exactly one string). *)
Record search_page := { result__count : option (option string) }.

(** [Spider.getTotalPaperNum]. [getHtml] stands for the method of that
    name of the base class [_Spider], which is not among the sources at
    hand: what it returns, or the exception it raises, for the payload. *)
Definition getTotalPaperNum
    (getHtml : gmap string value -> response search_page)
    (data : gmap string value) : outcome string :=
  match getHtml data with
  | Fails e => Raise e
  | Html bs =>
      match result__count bs with
      | Some (Some total_num) => Ret (remove_char "," total_num)
      | _ => Raise AttributeError   (* None has no .string, no .replace *)
      end
  end.

End ACS.

(** ** GUI/menu.py *)

Module Menu.

Import Py.

(** A detail list: [detail[0]] is the title, [detail[-2]] the doi. *)
Definition detail : Type := list (option string).

(** The [for] loop of [downloadByDoiFile] over the lines of the file. *)
Fixpoint load_dois (dois : list string) (details : list detail) : list detail :=
  match dois with
  | [] => details
  | doi :: rest =>
      if negb (startswith "10." doi) then load_dois rest details
      else
        let doi := strip doi in
        load_dois rest (details ++ [[Some (strip doi); None; Some (strip doi); None]])
  end.

(** [MenuBar.downloadByDoiFile]: [file] is what [askopenfile] returns, as
    the list [file.readlines()] gives (each line with its line end); the
    result is the argument passed on to [downloadAll]. *)
Definition downloadByDoiFile (file : option (list string)) : option (list detail) :=
  match file with
  | None => None
  | Some dois => Some (load_dois dois [])
  end.

(** [detail[0]] and [detail[-2]] *)
Definition detail_title (d : detail) : option string :=
  match d !! 0%nat with Some t => t | None => None end.

Definition detail_doi (d : detail) : option string :=
  match d !! (length d - 2)%nat with Some t => t | None => None end.

(** What the menu does to the window and to the downloader, in order. *)
Inductive effect :=
| SetTip (msg : string)     (* self.tip.setTip(msg) *)
| AskDirectory              (* askdirectory() *)
(* Queue(maxsize), SciHubDownloader(scihub_url) and the start of the
   thread that runs multiDownload(details, monitor_queue, target_dir) *)
| StartDownload (scihub_url : string) (details : list detail) (maxsize : nat)
    (target_dir : string)
| Monitor (size : nat)      (* self.main_frame.monitor(monitor_queue, size) *)
| BarStop.                  (* self.tip.bar.stop() *)

(** The main frame: its attribute [result], there once a search was done,
    and the address in its [scihub_url] field. *)
Record MainFrame := {
  result : option (list detail);
  scihub_url : string
}.

(** [MenuBar.downloadAll]. [target_dir] is what [askdirectory] answers
    (empty when the dialog is cancelled) and [monitor] the exception
    [main_frame.monitor] raises, if it raises one. *)
Definition downloadAll (main_frame : MainFrame) (target_dir : string)
    (monitor : option exn) (details : option (list detail))
  : outcome unit * list effect :=
  let run (details : list detail) : outcome unit * list effect :=
    if truthy target_dir then
      (match monitor with
       | None => Ret tt
       | Some e => Raise e
       end,
       [AskDirectory; SetTip "准备下载中...";
        StartDownload (scihub_url main_frame) details (length details) target_dir;
        Monitor (length details)]
       (* finally *)
       ++ [SetTip "下载结束"; BarStop])
    else (Ret tt, [AskDirectory]) in
  match details with
  | Some (d :: ds) => run (d :: ds)
  | _ =>
      (* not details: None, or a list that is empty *)
      match result main_frame with
      | None => (Ret tt, [SetTip "无搜索结果"])
      | Some details => run details
      end
  end.

(** [MenuBar.downloadByDoiFile] with the call of [downloadAll] it ends in. *)
Definition downloadByDoiFile_effects (main_frame : MainFrame)
    (target_dir : string) (monitor : option exn) (file : option (list string))
  : outcome unit * list effect :=
  match downloadByDoiFile file with
  | None => (Ret tt, [])
  | Some details => downloadAll main_frame target_dir monitor (Some details)
  end.

End Menu.

(** ** Vocabulary of the statements *)

Import Py PubMed.

(** The payload of the request for listing page [p], when the spider's
    payload was [d] on entry to [getPMIDs]. *)
Definition listing_request (d : gmap string value) (p : Z) : gmap string value :=
  <["page" := Int p]> (<["format" := Str "pmid"]> (<["size" := Str "200"]> d)).

(** The identifier chunk of listing page [p], when the page is served and
    has one. *)
Definition listing_text (net : Net) (d : gmap string value) (p : Z)
  : option string :=
  match get_search net (listing_request d p) with
  | Html bs => search_results_chunk bs
  | Fails _ => None
  end.

Definition page_ids (net : Net) (d : gmap string value) (p : Z) : list string :=
  match listing_text net d p with
  | Some text => split text
  | None => []
  end.

(** The identifiers of the [n] listing pages from page [p] on, in the
    provider's order, and the requests that fetch them. *)
Fixpoint ids_from (net : Net) (d : gmap string value) (p : Z) (n : nat)
  : list string :=
  match n with
  | O => []
  | S n' => page_ids net d p ++ ids_from net d (p + 1) n'
  end.

Fixpoint requests_from (d : gmap string value) (p : Z) (n : nat) : list request :=
  match n with
  | O => []
  | S n' => GetSearch (listing_request d p) :: requests_from d (p + 1) n'
  end.

(** The spider after the listing pages [p], ..., [p + n - 1] were read. *)
Definition advanced (d : gmap string value) (sp : Spider) (p : Z) (n : nat)
  : Spider :=
  {| data := listing_request d (p + Z.of_nat n);
     result_queue := result_queue sp;
     session := session sp;
     sent := sent sp ++ requests_from d p n |}.

(** The list [pmid_list] as it stands when the [finally] clause of
    [getPMIDs] runs. *)
Definition accumulated (net : Net) (num : Z) (sp : Spider) : list string :=
  match getPMIDs_try net num sp with
  | Some (_, pmid_list, _) => pmid_list
  | None => []
  end.

(** Page [1 + i] is served and does not hold exactly one identifier, for
    every [i < n]: the loop goes on after each of these pages. *)
Definition pages_go_on (net : Net) (d : gmap string value) (n : nat) : Prop :=
  forall i, (i < n)%nat ->
    exists text, listing_text net d (1 + Z.of_nat i) = Some text
                 /\ length (split text) <> 1%nat.

(** [ceil(n / 200)] *)
Definition ceil_div_200 (n : Z) : Z := (n + 199) / 200.

(** The spider as [getAllPapers] has it when it calls [getPMIDs]: the
    caller's queue stored, a session open. *)
Definition entered (q : PriorityQueue) (sp : Spider) : Spider :=
  set_session SessionOpen (set_result_queue (Some q) sp).

(** The record the task of [pmid] hands to the queue (the default stands
    for a task that hands over none), and the condition under which the
    task, run with an open session, completes without raising. *)
Definition paper_of `{Utils} (net : Net) (pmid : string) : paper :=
  match fst (fetch_details (get_detail net (base_url +:+ pmid)) (base_url +:+ pmid)) with
  | Some p => p
  | None => error_paper (base_url +:+ pmid)
  end.

Definition completes `{Utils} (net : Net) (pmid : string) : Prop :=
  fetch_details (get_detail net (base_url +:+ pmid)) (base_url +:+ pmid)
  = (Some (paper_of net pmid), None).

(** The entry of a task, and the order of the queue. *)
Definition task_entry `{Utils} (net : Net) (t : nat * string) : entry :=
  (fst t, paper_of net (snd t)).

Definition index_le (x y : entry) : Prop := (fst x <= fst y)%nat.

(** The queue takes [n] more entries without waiting. *)
Definition room (q : PriorityQueue) (n : nat) : Prop :=
  maxsize q <= 0 \/ Z.of_nat (length (queue q) + n) <= maxsize q.

(** The term of the query as the specification words it: the clauses of
    the keyword, of the years and of the author, each one present exactly
    when its parameter is not empty, joined by " AND ". *)
Definition spec_term (keyword start_year end_year author : string) : string :=
  join " AND "
    ((if truthy keyword then [keyword] else [])
     ++ (if truthy start_year && truthy end_year
         then [start_year +:+ ":" +:+ end_year +:+ "[dp]"] else [])
     ++ (if truthy author then [author +:+ "[author]"] else [])).

(** The lines of a DOI file. An identifier is a token of visible ASCII
    characters that starts with "10."; its line may end in white space (the
    line end). Any line that does not start with "10." is garbage. *)
Fixpoint string_forall (P : ascii -> bool) (s : string) : bool :=
  match s with
  | EmptyString => true
  | String c s' => P c && string_forall P s'
  end.

Definition visible (c : ascii) : bool :=
  (33 <=? nat_of_ascii c)%nat && (nat_of_ascii c <=? 126)%nat.

Definition identifier (s : string) : bool :=
  startswith "10." s && string_forall visible s.

Inductive line :=
| IdentifierLine (id : string) (ending : string)
| GarbageLine (text : string).

Definition line_text (l : line) : string :=
  match l with
  | IdentifierLine id ending => id +:+ ending
  | GarbageLine text => text
  end.

Definition well_formed (l : line) : bool :=
  match l with
  | IdentifierLine id ending => identifier id && string_forall is_space ending
  | GarbageLine text => negb (startswith "10." text)
  end.

Definition identifiers (file : list line) : list string :=
  omap (fun l => match l with
                 | IdentifierLine id _ => Some id
                 | GarbageLine _ => None
                 end) file.

(** The address of the page of paper [pmid]. *)
Definition detail_request (pmid : string) : request :=
  GetDetail (base_url +:+ pmid).

(** The spider with another trace of requests. *)
Definition with_sent (trace : list request) (sp : Spider) : Spider :=
  {| data := data sp; result_queue := result_queue sp;
     session := session sp; sent := trace |}.

(** A decimal digit, and the text of a count: digits with commas between
    them. *)
Definition is_digit (c : ascii) : bool :=
  (48 <=? nat_of_ascii c)%nat && (nat_of_ascii c <=? 57)%nat.

Definition count_text (s : string) : bool :=
  string_forall (fun c => is_digit c || Ascii.eqb "," c) s.

(** Text within ASCII: every character is below 128. *)
Definition is_ascii (c : ascii) : bool := (nat_of_ascii c <? 128)%nat.

Definition ascii_text (s : string) : bool := string_forall is_ascii s.

(** The last character of a string, if it has one. *)
Fixpoint last_char (s : string) : option ascii :=
  match s with
  | EmptyString => None
  | String c EmptyString => Some c
  | String _ s' => last_char s'
  end.

(** The page of paper [pmid] is served, without a main.article-details
    element. *)
Definition no_article_details (net : Net) (pmid : string) : Prop :=
  exists bs, get_detail net (base_url +:+ pmid) = Html bs
             /\ main_article_details bs = None.

(** ** Sample inputs *)

(** [TipException] as a subclass of [Exception]. *)
Definition std_utils : Utils := {| TipException_is_Exception := true |}.

Definition LF : string := String (ascii_of_nat 10) EmptyString.

(** The spider of the module's [__main__] block, as [__init__] leaves it. *)
Definition main_spider : Spider :=
  {| data := parseData "crispr" "2010" "2020" "Martin" "nature" "相关性";
     result_queue := None;
     session := SessionNone;
     sent := [] |}.

Definition sample_queue : PriorityQueue := {| maxsize := 3; queue := [] |}.

(** A listing page with the chunk [chunk], and a server that answers the
    request for page [p] with the [p]-th of [chunks] and times out beyond. *)
Definition listing_page (chunk : option string) : search_page :=
  {| single_result_redirect_message := false;
     results_amount := None;
     search_results_chunk := chunk |}.

Definition serve_listing (chunks : list (option string))
    (params : gmap string value) : response search_page :=
  match params !! "page" with
  | Some (Int p) =>
      match chunks !! Z.to_nat (p - 1) with
      | Some chunk => Html (listing_page chunk)
      | None => Fails TimeoutError
      end
  | _ => Fails (ClientError "bad request")
  end.

Definition sample_article : article_details :=
  {| heading_title := Some "Genome  editing";
     cit := Some "2020 Jan;1(1):1-2";
     full_view_journal_trigger := Some " Nature ";
     authors_list_items := ["Martin A"; "Martin B"];
     abstract_content := None;
     doi_link := Some " 10.1000/182 ";
     full_text_links_list := Some (Href "https://doi.org/10.1000/182") |}.

(** The page of paper 2 cannot be fetched; every other paper has the
    sample page. *)
Definition serve_detail (url : string) : response detail_page :=
  if String.eqb url "https://pubmed.ncbi.nlm.nih.gov/2" then Fails TimeoutError
  else Html {| main_article_details := Some sample_article |}.

Definition sample_net (chunks : list (option string)) : Net :=
  {| get_search := serve_listing chunks; get_detail := serve_detail |}.

(** The page of paper 2 is served without its article-details element;
    every other paper has the sample page. *)
Definition serve_bare_detail (url : string) : response detail_page :=
  if String.eqb url "https://pubmed.ncbi.nlm.nih.gov/2"
  then Html {| main_article_details := None |}
  else Html {| main_article_details := Some sample_article |}.

Definition bare_page_net (chunks : list (option string)) : Net :=
  {| get_search := serve_listing chunks; get_detail := serve_bare_detail |}.

(** The listing of the papers 1, 2 and 3, one per line. *)
Definition sample_listing : string :=
  "1" +:+ LF +:+ "2" +:+ LF +:+ "3" +:+ LF.

(** A search page that reports no results. *)
Definition no_results_net : Net :=
  {| get_search := fun _ =>
       Html {| single_result_redirect_message := false;
               results_amount := Some None;
               search_results_chunk := None |};
     get_detail := serve_detail |}.

(** A chunk of [n] identifiers, one per line. *)
Fixpoint chunk_of (n : nat) : string :=
  match n with
  | O => EmptyString
  | S n' => "30049270" +:+ LF +:+ chunk_of n'
  end.

(** The completion order that takes the last pending task first. *)
Definition last_first (pending : list (nat * string)) : nat :=
  (length pending - 1)%nat.

Definition sample_file : list line :=
  [ IdentifierLine "10.1000/182" LF;
    GarbageLine ("# my reading list" +:+ LF);
    GarbageLine (" 10.1038/nphys1170" +:+ LF);
    IdentifierLine "10.1038/nphys1170" ("  " +:+ LF) ].

Definition sample_spider : Spider := entered sample_queue main_spider.

Definition sample_pmids : list string := ["1"; "2"; "3"].

(** A search page that reports 1,234,567 results. *)
Definition counting_net : Net :=
  {| get_search := fun _ =>
       Html {| single_result_redirect_message := false;
               results_amount := Some (Some "1,234,567");
               search_results_chunk := None |};
     get_detail := serve_detail |}.

(** A main frame after a search with one result. *)
Definition sample_frame : Menu.MainFrame :=
  {| Menu.result :=
       Some [[Some "Genome editing"; Some "Martin A"; Some "2020";
              Some "Nature"; Some "No Abstract"; Some "10.1000/182";
              Some "https://doi.org/10.1000/182"]];
     Menu.scihub_url := "https://sci-hub.se" |}.

(** A file of notes, without a line that starts with "10.". *)
Definition notes_file : list string :=
  ["# my reading list" +:+ LF; " 10.1038/nphys1170" +:+ LF; "doi:10.1000/182"].

(** ** Pagination: the loop of [getPMIDs] *)

Section Pagination.

Context `{Utils}.
Variable net : Net.
Variable num : Z.
Variable d : gmap string value.

Lemma listing_request_page p : listing_request d p !! "page" = Some (Int p).
Proof. unfold listing_request. apply lookup_insert_eq. Qed.

Lemma listing_request_next p :
  <["page" := Int (p + 1)]> (listing_request d p) = listing_request d (p + 1).
Proof. unfold listing_request. apply insert_insert_eq. Qed.

Lemma listing_request_first :
  <["format" := Str "pmid"]> (<["page" := Int 1]> (<["size" := Str "200"]> d))
  = listing_request d 1.
Proof. unfold listing_request. by apply insert_insert_ne. Qed.

Lemma listing_text_Some p text :
  listing_text net d p = Some text ->
  exists bs, get_search net (listing_request d p) = Html bs
             /\ search_results_chunk bs = Some text.
Proof.
  unfold listing_text. destruct (get_search net _) as [e|bs]; [done|]. eauto.
Qed.

Lemma fetch_pages_steps n : forall fuel p acc sp,
  data sp = listing_request d p ->
  session sp = SessionOpen ->
  p + Z.of_nat n <= Z.max ((num - 1) / 200 + 1 + 1) p ->
  (forall i, (i < n)%nat ->
     exists text, listing_text net d (p + Z.of_nat i) = Some text
                  /\ length (split text) <> 1%nat) ->
  fetch_pages (n + fuel) net num acc sp
  = fetch_pages fuel net num (acc ++ ids_from net d p n) (advanced d sp p n).
Proof.
  induction n as [|n IH]; intros fuel p acc sp Hd Hs Hp Hpages.
  - cbn [Nat.add ids_from]. rewrite app_nil_r. f_equal.
    destruct sp as [dt q s l]; cbn in *; subst.
    unfold advanced; cbn. by rewrite Z.add_0_r, app_nil_r.
  - destruct (Hpages 0%nat ltac:(lia)) as (text & Ht & Hlen).
    rewrite Z.add_0_r in Ht.
    destruct (listing_text_Some _ _ Ht) as (bs & Hget & Hchunk).
    cbn [Nat.add fetch_pages]. rewrite Hd, listing_request_page.
    destruct (Z.leb_spec p ((num - 1) / 200 + 1)); [|lia].
    rewrite Hs. cbn [send data]. rewrite Hd, Hget, Hchunk.
    destruct (Nat.eqb_spec (length (split text)) 1); [done|].
    rewrite listing_request_next.
    rewrite (IH fuel (p + 1)); cbn; [| done | done | lia |].
    + f_equal.
      * cbn [ids_from]. unfold page_ids. rewrite Ht. by rewrite <- app_assoc.
      * unfold advanced; cbn. f_equal; [f_equal; lia|].
        by rewrite <- app_assoc.
    + intros i Hi. destruct (Hpages (S i) ltac:(lia)) as (t & Hti & Hl).
      exists t. split; [|done]. rewrite <- Hti. f_equal. lia.
Qed.

(** The loop ends when the page cursor has passed the last page needed. *)
Lemma fetch_pages_done fuel p acc sp :
  data sp = listing_request d p ->
  (num - 1) / 200 + 1 < p ->
  fetch_pages (S fuel) net num acc sp = Some (Ret tt, acc, sp).
Proof.
  intros Hd Hp. cbn [fetch_pages]. rewrite Hd, listing_request_page.
  destruct (Z.leb_spec p ((num - 1) / 200 + 1)); [lia|done].
Qed.

(** [break]: the page holds one identifier. *)
Lemma fetch_pages_single fuel p acc sp text :
  data sp = listing_request d p ->
  session sp = SessionOpen ->
  p <= (num - 1) / 200 + 1 ->
  listing_text net d p = Some text ->
  length (split text) = 1%nat ->
  fetch_pages (S fuel) net num acc sp
  = Some (Ret tt, acc ++ split text, send (GetSearch (listing_request d p)) sp).
Proof.
  intros Hd Hs Hp Ht Hlen.
  destruct (listing_text_Some _ _ Ht) as (bs & Hget & Hchunk).
  cbn [fetch_pages]. rewrite Hd, listing_request_page.
  destruct (Z.leb_spec p ((num - 1) / 200 + 1)); [|lia].
  rewrite Hs. cbn [send data]. rewrite Hd, Hget, Hchunk, Hlen. done.
Qed.

(** The request raises. *)
Lemma fetch_pages_fails fuel p acc sp e :
  data sp = listing_request d p ->
  session sp = SessionOpen ->
  p <= (num - 1) / 200 + 1 ->
  get_search net (listing_request d p) = Fails e ->
  fetch_pages (S fuel) net num acc sp
  = Some (Raise e, acc, send (GetSearch (listing_request d p)) sp).
Proof.
  intros Hd Hs Hp Hget.
  cbn [fetch_pages]. rewrite Hd, listing_request_page.
  destruct (Z.leb_spec p ((num - 1) / 200 + 1)); [|lia].
  rewrite Hs. cbn [send data]. rewrite Hd, Hget. done.
Qed.

(** The page has no identifier chunk and the queue is empty. *)
Lemma fetch_pages_not_found fuel p acc sp bs q :
  data sp = listing_request d p ->
  session sp = SessionOpen ->
  p <= (num - 1) / 200 + 1 ->
  get_search net (listing_request d p) = Html bs ->
  search_results_chunk bs = None ->
  result_queue sp = Some q ->
  queue q = [] ->
  fetch_pages (S fuel) net num acc sp
  = Some (Raise (TipException "未找到相关文献"), acc,
          set_result_queue
            (Some {| maxsize := 1; queue := [(0%nat, not_found_row)] |})
            (send (GetSearch (listing_request d p)) sp)).
Proof.
  intros Hd Hs Hp Hget Hchunk Hq Hempty.
  cbn [fetch_pages]. rewrite Hd, listing_request_page.
  destruct (Z.leb_spec p ((num - 1) / 200 + 1)); [|lia].
  rewrite Hs. cbn [send data result_queue]. rewrite Hd, Hget, Hchunk, Hq.
  unfold put, full, set_maxsize. cbn. rewrite Hempty. done.
Qed.

End Pagination.

(** ** [getPMIDs] as a whole *)

Section Identifiers.

Context `{Utils}.
Variable net : Net.
Variable num : Z.

Lemma ids_from_snoc d n : forall p,
  ids_from net d p (S n) = ids_from net d p n ++ page_ids net d (p + Z.of_nat n).
Proof.
  induction n as [|n IH]; intros p.
  - cbn. by rewrite Z.add_0_r, app_nil_r.
  - change (ids_from net d p (S (S n)))
      with (page_ids net d p ++ ids_from net d (p + 1) (S n)).
    rewrite (IH (p + 1)). cbn [ids_from]. rewrite <- app_assoc.
    by replace (p + Z.of_nat (S n)) with (p + 1 + Z.of_nat n) by lia.
Qed.

Lemma requests_from_snoc d n : forall p,
  requests_from d p (S n)
  = requests_from d p n ++ [GetSearch (listing_request d (p + Z.of_nat n))].
Proof.
  induction n as [|n IH]; intros p.
  - cbn. by rewrite Z.add_0_r.
  - change (requests_from d p (S (S n)))
      with (GetSearch (listing_request d p) :: requests_from d (p + 1) (S n)).
    rewrite (IH (p + 1)). cbn [requests_from]. rewrite <- app_comm_cons.
    by replace (p + Z.of_nat (S n)) with (p + 1 + Z.of_nat n) by lia.
Qed.

Lemma length_requests_from d n : forall p, length (requests_from d p n) = n.
Proof. induction n as [|n IH]; intros p; cbn; [done|]. by rewrite IH. Qed.

(** With fuel beyond the pages left the loop ends, and with an empty queue
    (or none) it does not wait in [put]. *)
Local Ltac ends_now := do 3 eexists; split; [reflexivity | discriminate].

Lemma fetch_pages_ends fuel : forall acc sp,
  (0 < fuel)%nat ->
  (forall p, data sp !! "page" = Some (Int p) ->
             (num - 1) / 200 + 1 + 1 - p < Z.of_nat fuel) ->
  (forall q, result_queue sp = Some q -> queue q = []) ->
  exists body pmid_list sp',
    fetch_pages fuel net num acc sp = Some (body, pmid_list, sp')
    /\ body <> Blocked.
Proof.
  induction fuel as [|fuel IH]; intros acc sp Hpos Hfuel Hq; [lia|].
  cbn [fetch_pages].
  destruct (data sp !! "page") as [[s|p]|] eqn:Hpage; [ends_now | | ends_now].
  destruct (Z.leb_spec p ((num - 1) / 200 + 1)) as [Hle|Hgt]; [|ends_now].
  destruct (session sp); [ends_now | | ends_now].
  cbn [send data result_queue].
  destruct (get_search net (data sp)) as [e|bs]; [ends_now|].
  destruct (search_results_chunk bs) as [text|].
  - destruct (length (split text) =? 1)%nat; [ends_now|].
    specialize (Hfuel p eq_refl).
    apply IH; [lia | | done].
    cbn. intros p'. rewrite lookup_insert_eq. intros [= <-]. lia.
  - destruct (result_queue sp) as [q|] eqn:Hrq; [|ends_now].
    unfold put, full, set_maxsize. cbn. rewrite (Hq q eq_refl). cbn. ends_now.
Qed.

(** [getPMIDs] in terms of its loop. *)
Lemma getPMIDs_try_eq sp :
  getPMIDs_try net num sp
  = fetch_pages (S (Z.to_nat ((num - 1) / 200 + 1))) net num []
      (set_data (listing_request (data sp) 1) sp).
Proof. unfold getPMIDs_try. by rewrite listing_request_first. Qed.

Lemma getPMIDs_eq sp :
  getPMIDs net num sp
  = match fetch_pages (S (Z.to_nat ((num - 1) / 200 + 1))) net num []
            (set_data (listing_request (data sp) 1) sp) with
    | None => None
    | Some (Blocked, _, sp') => Some (Blocked, sp')
    | Some (_, pmid_list, sp') => Some (Ret (slice_to pmid_list num), sp')
    end.
Proof.
  unfold getPMIDs. rewrite getPMIDs_try_eq.
  destruct (fetch_pages _ _ _ _ _) as [[[body l] sp']|]; [|done].
  destruct body as [[]|e|]; [done| |done].
  destruct e; cbn; try done. by destruct TipException_is_Exception.
Qed.

(** [getPMIDs] returns, whatever the pages do. *)
Lemma getPMIDs_returns sp :
  (forall q, result_queue sp = Some q -> queue q = []) ->
  exists sp', getPMIDs net num sp = Some (Ret (slice_to (accumulated net num sp) num), sp').
Proof.
  intros Hq. rewrite getPMIDs_eq. unfold accumulated.
  rewrite getPMIDs_try_eq.
  destruct (fetch_pages_ends (S (Z.to_nat ((num - 1) / 200 + 1))) []
              (set_data (listing_request (data sp) 1) sp))
    as (body & l & sp' & -> & Hb); [lia | | done |].
  - cbn. intros p. rewrite listing_request_page. intros [= <-]. lia.
  - destruct body; [by eauto..|done].
Qed.

End Identifiers.

Section Runs.

Context `{Utils}.
Variable net : Net.
Variable num : Z.
Variable sp : Spider.

Lemma loop_after_pages n :
  session sp = SessionOpen ->
  Z.of_nat n <= Z.max ((num - 1) / 200 + 1) 0 ->
  pages_go_on net (data sp) n ->
  fetch_pages (S (Z.to_nat ((num - 1) / 200 + 1))) net num []
    (set_data (listing_request (data sp) 1) sp)
  = fetch_pages (S (Z.to_nat ((num - 1) / 200 + 1) - n)) net num (ids_from net (data sp) 1 n)
      (advanced (data sp) sp 1 n).
Proof.
  intros Hs Hn Hgo.
  replace (S (Z.to_nat ((num - 1) / 200 + 1)))
    with (n + S (Z.to_nat ((num - 1) / 200 + 1) - n))%nat by lia.
  by rewrite (fetch_pages_steps net num (data sp) n _ 1 []); [| | | lia |].
Qed.

(** The run in which page [n + 1] holds exactly one identifier. *)
Lemma getPMIDs_single n text :
  session sp = SessionOpen ->
  Z.of_nat n + 1 <= ((num - 1) / 200 + 1) ->
  pages_go_on net (data sp) n ->
  listing_text net (data sp) (1 + Z.of_nat n) = Some text ->
  length (split text) = 1%nat ->
  getPMIDs net num sp
  = Some (Ret (slice_to (ids_from net (data sp) 1 (S n)) num),
          send (GetSearch (listing_request (data sp) (1 + Z.of_nat n)))
            (advanced (data sp) sp 1 n)).
Proof.
  intros Hs Hn Hgo Ht Hlen.
  rewrite getPMIDs_eq, (loop_after_pages n) by (done || lia).
  rewrite (fetch_pages_single net num (data sp) _ (1 + Z.of_nat n) _ _ text);
    [| done | done | lia | done | done].
  rewrite ids_from_snoc. unfold page_ids. by rewrite Ht.
Qed.

(** The run in which the first [n] pages are all the pages asked for. *)
Lemma getPMIDs_all_pages n :
  session sp = SessionOpen ->
  Z.of_nat n = Z.max ((num - 1) / 200 + 1) 0 ->
  pages_go_on net (data sp) n ->
  getPMIDs net num sp
  = Some (Ret (slice_to (ids_from net (data sp) 1 n) num), advanced (data sp) sp 1 n).
Proof.
  intros Hs Hn Hgo.
  rewrite getPMIDs_eq, (loop_after_pages n) by (done || lia).
  by rewrite (fetch_pages_done net num (data sp) _ (1 + Z.of_nat n));
    [| | lia].
Qed.

(** The run in which the request for page [n + 1] raises. *)
Lemma getPMIDs_fails n e :
  session sp = SessionOpen ->
  Z.of_nat n + 1 <= ((num - 1) / 200 + 1) ->
  pages_go_on net (data sp) n ->
  get_search net (listing_request (data sp) (1 + Z.of_nat n)) = Fails e ->
  getPMIDs net num sp
  = Some (Ret (slice_to (ids_from net (data sp) 1 n) num),
          send (GetSearch (listing_request (data sp) (1 + Z.of_nat n)))
            (advanced (data sp) sp 1 n)).
Proof.
  intros Hs Hn Hgo Hget.
  rewrite getPMIDs_eq, (loop_after_pages n) by (done || lia).
  rewrite (fetch_pages_fails net num (data sp) _ (1 + Z.of_nat n) _ _ e);
    [| done | done | lia | done].
  done.
Qed.

(** The run in which page [n + 1] has no identifier chunk. *)
Lemma getPMIDs_not_found n q bs :
  session sp = SessionOpen ->
  Z.of_nat n + 1 <= ((num - 1) / 200 + 1) ->
  pages_go_on net (data sp) n ->
  get_search net (listing_request (data sp) (1 + Z.of_nat n)) = Html bs ->
  search_results_chunk bs = None ->
  result_queue sp = Some q ->
  queue q = [] ->
  getPMIDs net num sp
  = Some (Ret (slice_to (ids_from net (data sp) 1 n) num),
          set_result_queue
            (Some {| maxsize := 1; queue := [(0%nat, not_found_row)] |})
            (send (GetSearch (listing_request (data sp) (1 + Z.of_nat n)))
               (advanced (data sp) sp 1 n))).
Proof.
  intros Hs Hn Hgo Hget Hchunk Hq Hempty.
  rewrite getPMIDs_eq, (loop_after_pages n) by (done || lia).
  rewrite (fetch_pages_not_found net num (data sp) _ (1 + Z.of_nat n) _ _ bs q);
    [| done | done | lia | done | done | done | done].
  done.
Qed.

End Runs.

(** ** Properties of [getPMIDs] *)

Section PaginationClaims.

Context `{Utils}.
Variable net : Net.

Lemma page_limit_ceil num : (num - 1) / 200 + 1 = ceil_div_200 num.
Proof.
  unfold ceil_div_200.
  replace (num + 199) with (num - 1 + 1 * 200) by lia.
  by rewrite Z.div_add by lia.
Qed.

Lemma length_ids_from_full d n : forall p,
  (forall i, (i < n)%nat ->
     exists text, listing_text net d (p + Z.of_nat i) = Some text
                  /\ length (split text) = 200%nat) ->
  length (ids_from net d p n) = (200 * n)%nat.
Proof.
  induction n as [|n IH]; intros p Hfull; [done|].
  cbn [ids_from]. rewrite length_app, (IH (p + 1)).
  - destruct (Hfull 0%nat ltac:(lia)) as (text & Ht & Hlen).
    rewrite Z.add_0_r in Ht. unfold page_ids. rewrite Ht, Hlen. lia.
  - intros i Hi. destruct (Hfull (S i) ltac:(lia)) as (text & Ht & Hlen).
    exists text. split; [|done]. rewrite <- Ht. f_equal. lia.
Qed.

Lemma slice_to_take {A} (l : list A) n : 0 <= n -> slice_to l n = take (Z.to_nat n) l.
Proof. intros Hn. unfold slice_to. by destruct (Z.leb_spec 0 n); [|lia]. Qed.


(** C5. For [num >= 1] and a listing that holds at least [num]
    identifiers, each page before the last one asked for holding 200 and
    the last one at least what is still missing, [getPMIDs] returns exactly
    [num] identifiers, the first [num] of the provider's order, and issues
    the requests of pages 1 to [ceil(num / 200)] and no other. *)
Theorem getPMIDs_exact_count num sp n :
  1 <= num ->
  session sp = SessionOpen ->
  Z.of_nat (S n) = ceil_div_200 num ->
  (forall i, (i < n)%nat ->
     exists text, listing_text net (data sp) (1 + Z.of_nat i) = Some text
                  /\ length (split text) = 200%nat) ->
  (exists text, listing_text net (data sp) (1 + Z.of_nat n) = Some text
                /\ num - 200 * Z.of_nat n <= Z.of_nat (length (split text))) ->
  exists ids sp',
    getPMIDs net num sp = Some (Ret ids, sp')
    /\ ids = take (Z.to_nat num) (ids_from net (data sp) 1 (S n))
    /\ Z.of_nat (length ids) = num
    /\ sent sp' = sent sp ++ requests_from (data sp) 1 (S n)
    /\ Z.of_nat (length (requests_from (data sp) 1 (S n))) = ceil_div_200 num.
Proof.
  intros Hnum Hs Hk Hfull (text & Ht & Hlast).
  rewrite <- page_limit_ceil in Hk.
  assert (pages_go_on net (data sp) n) as Hgo.
  { intros i Hi. destruct (Hfull i Hi) as (t & Hti & Hl).
    exists t. split; [done|lia]. }
  assert (Z.to_nat num <= length (ids_from net (data sp) 1 (S n)))%nat as Hlen.
  { rewrite ids_from_snoc, length_app, (length_ids_from_full _ n 1 Hfull).
    unfold page_ids. rewrite Ht. lia. }
  exists (take (Z.to_nat num) (ids_from net (data sp) 1 (S n))).
  destruct (decide (length (split text) = 1%nat)) as [Hone|Hmore].
  - eexists. split; [|split; [done|split; [|split]]].
    + rewrite (getPMIDs_single net num sp n text) by (done || lia).
      by rewrite slice_to_take by lia.
    + rewrite length_take_le by done. lia.
    + cbn [sent send advanced]. by rewrite requests_from_snoc, app_assoc.
    + rewrite length_requests_from, <- page_limit_ceil. lia.
  - eexists. split; [|split; [done|split; [|split]]].
    + rewrite (getPMIDs_all_pages net num sp (S n)); [| done | lia |].
      * by rewrite slice_to_take by lia.
      * intros i Hi. destruct (decide (i = n)) as [->|Hne]; [by eauto|].
        apply Hgo. lia.
    + rewrite length_take_le by done. lia.
    + done.
    + rewrite length_requests_from, <- page_limit_ceil. lia.
Qed.

(** C6. Called with [num >= 0] and an empty result queue, [getPMIDs]
    returns the first [num] of the identifiers accumulated (all of them
    when they are fewer): a prefix of what was accumulated, of at most
    [num] elements. In particular, when the request for page [n + 1]
    raises (a timeout, or any other exception) after [n] pages were read,
    the list returned is made of the first [num] identifiers of these [n]
    pages, in the provider's order: what was accumulated is not dropped,
    and no request follows the one that failed. *)
Theorem getPMIDs_at_most_requested num sp :
  0 <= num ->
  (forall q, result_queue sp = Some q -> queue q = []) ->
  exists ids sp',
    getPMIDs net num sp = Some (Ret ids, sp')
    /\ ids = take (Z.to_nat num) (accumulated net num sp)
    /\ ids `prefix_of` accumulated net num sp
    /\ Z.of_nat (length ids) <= num
    /\ forall n e,
         session sp = SessionOpen ->
         Z.of_nat n + 1 <= (num - 1) / 200 + 1 ->
         pages_go_on net (data sp) n ->
         get_search net (listing_request (data sp) (1 + Z.of_nat n)) = Fails e ->
         ids = take (Z.to_nat num) (ids_from net (data sp) 1 n)
         /\ length ids
            = Nat.min (Z.to_nat num) (length (ids_from net (data sp) 1 n))
         /\ sent sp' = sent sp ++ requests_from (data sp) 1 (S n).
Proof.
  intros Hnum Hq.
  destruct (getPMIDs_returns net num sp Hq) as (sp' & Hret).
  exists (take (Z.to_nat num) (accumulated net num sp)), sp'.
  split; [by rewrite <- slice_to_take|]. split; [done|].
  split; [apply prefix_take|]. split; [rewrite length_take; lia|].
  intros n e Hs Hn Hgo Hget.
  rewrite (getPMIDs_fails net num sp n e) in Hret by done.
  injection Hret as Hids Hsp. rewrite <- slice_to_take, <- Hids by done.
  rewrite slice_to_take by done. split; [done|].
  split; [apply length_take|].
  rewrite <- Hsp. cbn [sent send advanced].
  by rewrite requests_from_snoc, app_assoc.
Qed.

(** C2 (what the code does). When the first listing page has no identifier
    chunk, [getPMIDs] puts the "not found" row on the queue and raises
    [TipException], but its [finally] clause returns: the call ends with
    the empty list, no exception reaches the caller. *)
Theorem getPMIDs_not_found_returns num sp q bs :
  1 <= num ->
  session sp = SessionOpen ->
  result_queue sp = Some q ->
  queue q = [] ->
  get_search net (listing_request (data sp) 1) = Html bs ->
  search_results_chunk bs = None ->
  exists sp',
    getPMIDs net num sp = Some (Ret [], sp')
    /\ result_queue sp'
       = Some {| maxsize := 1; queue := [(0%nat, not_found_row)] |}
    /\ sent sp' = sent sp ++ [GetSearch (listing_request (data sp) 1)].
Proof.
  intros Hnum Hs Hq Hempty Hget Hchunk.
  assert (1 <= (num - 1) / 200 + 1)
    by (pose proof (Z.div_pos (num - 1) 200); lia).
  eexists. split; [|split].
  - rewrite (getPMIDs_not_found net num sp 0 q bs)
      by (done || lia || (intros i ?; lia)).
    cbn [ids_from]. rewrite slice_to_take by lia. by rewrite take_nil.
  - done.
  - cbn. by rewrite app_nil_r.
Qed.

End PaginationClaims.

(** ** The priority queue *)

Section Queue.

Global Instance index_le_trans : Transitive index_le.
Proof. unfold index_le. intros x y z. lia. Qed.

Lemma insert_entry_Permutation e l : insert_entry e l ≡ₚ e :: l.
Proof.
  induction l as [|x l IH]; cbn [insert_entry]; [done|].
  destruct (fst e <? fst x)%nat; [done|].
  by rewrite IH, Permutation_swap.
Qed.

Lemma length_insert_entry e l : length (insert_entry e l) = S (length l).
Proof. by rewrite insert_entry_Permutation. Qed.

Lemma insert_entry_HdRel a e l :
  index_le a e -> HdRel index_le a l -> HdRel index_le a (insert_entry e l).
Proof.
  intros Hae Hal. destruct l as [|x l]; cbn [insert_entry]; [by constructor|].
  destruct (fst e <? fst x)%nat; constructor; [done|].
  by inversion Hal.
Qed.

Lemma insert_entry_Sorted e l :
  Sorted index_le l -> Sorted index_le (insert_entry e l).
Proof.
  induction 1 as [|x l Hl IH Hhd]; cbn [insert_entry]; [by repeat constructor|].
  destruct (Nat.ltb_spec (fst e) (fst x)).
  - constructor; [by constructor|]. constructor. unfold index_le. lia.
  - constructor; [done|]. apply insert_entry_HdRel; [|done].
    unfold index_le. lia.
Qed.

Lemma put_room e q n :
  room q (S n) ->
  put e q = Some {| maxsize := maxsize q; queue := insert_entry e (queue q) |}
  /\ room {| maxsize := maxsize q; queue := insert_entry e (queue q) |} n.
Proof.
  intros Hroom. unfold put, full, room in *. cbn [maxsize queue].
  rewrite length_insert_entry. split; [|lia].
  destruct (Z.ltb_spec 0 (maxsize q)); [|done].
  destruct (Z.leb_spec (maxsize q) (Z.of_nat (length (queue q)))); [lia|done].
Qed.

Lemma read_out_all n : forall q,
  (length (queue q) <= n)%nat -> read_out n q = queue q.
Proof.
  induction n as [|n IH]; intros [m l] Hn; cbn in *.
  - destruct l; [done|cbn in Hn; lia].
  - unfold get. cbn. destruct l as [|e l]; [done|].
    rewrite IH; [done|]. cbn in *. lia.
Qed.

End Queue.

(** ** The detail-fetch stage *)

Section DetailStage.

Context `{Utils}.
Variable net : Net.

(** A task that completes puts its one entry on the queue and returns. *)
Lemma getPagesInfo_completes index pmid sp q n :
  session sp = SessionOpen ->
  result_queue sp = Some q ->
  room q (S n) ->
  completes net pmid ->
  getPagesInfo net index pmid sp
  = (Ret tt,
     set_result_queue
       (Some {| maxsize := maxsize q;
                queue := insert_entry (index, paper_of net pmid) (queue q) |})
       (send (GetDetail (base_url +:+ pmid)) sp)).
Proof.
  intros Hs Hq Hroom Hdone. unfold getPagesInfo. rewrite Hs, Hdone.
  cbn [result_queue send]. rewrite Hq.
  by destruct (put_room (index, paper_of net pmid) q n Hroom) as [-> _].
Qed.

(** Whatever [pick] chooses, a stage whose tasks all complete returns with
    the entries of all its tasks added to the queue, in ascending order. *)
Lemma gather_go_completes pick n : forall pending sp q,
  length pending = n ->
  session sp = SessionOpen ->
  result_queue sp = Some q ->
  room q n ->
  Forall (fun t => completes net (snd t)) pending ->
  exists sp' l,
    gather_go pick net n pending sp = (Ret tt, sp')
    /\ result_queue sp' = Some {| maxsize := maxsize q; queue := l |}
    /\ session sp' = SessionOpen
    /\ data sp' = data sp
    /\ l ≡ₚ queue q ++ (task_entry net <$> pending)
    /\ (Sorted index_le (queue q) -> Sorted index_le l).
Proof.
  induction n as [|n IH]; intros pending sp q Hlen Hs Hq Hroom Hall.
  - destruct pending; [|done]. exists sp, (queue q). cbn.
    rewrite app_nil_r. by destruct q.
  - cbn [gather_go].
    assert (pick pending mod length pending < length pending)%nat as Hk
      by (apply Nat.mod_upper_bound; lia).
    set (k := (pick pending mod length pending)%nat) in *. clearbody k.
    destruct (lookup_lt_is_Some_2 _ _ Hk) as [[index pmid] Ht].
    rewrite Ht.
    assert (completes net pmid) as Hdone
      by (by apply (proj1 (Forall_lookup _ _) Hall _ _ Ht)).
    rewrite (getPagesInfo_completes index pmid sp q n) by done.
    destruct (put_room (index, paper_of net pmid) q n Hroom) as [_ Hroom'].
    edestruct (IH (delete k pending))
      as (sp' & l & -> & Hq' & Hs' & Hd' & Hperm & Hsorted);
      [ by rewrite length_delete, Hlen; [lia|eauto]
      | exact Hs | reflexivity | exact Hroom' | by apply Forall_delete | ].
    exists sp', l. cbn [maxsize queue] in *.
    split; [done|]. split; [done|]. split; [done|]. split; [done|]. split.
    + rewrite Hperm, insert_entry_Permutation.
      rewrite (delete_Permutation pending k _ Ht) at 2.
      cbn. by rewrite Permutation_middle.
    + intros Hsrt. by apply Hsorted, insert_entry_Sorted.
Qed.

(** The entries of the tasks built by [enumerate] are in ascending order
    of their indices, and an index determines its entry. *)
Lemma enumerated_entries pmids :
  task_entry net <$> imap (fun index pmid => (index, pmid)) pmids
  = imap (fun index pmid => (index, paper_of net pmid)) pmids.
Proof. by rewrite fmap_imap. Qed.

Lemma enumerated_Sorted (pmids : list string) : forall k,
  StronglySorted index_le
    (imap (fun index pmid => ((k + index)%nat, paper_of net pmid)) pmids).
Proof.
  induction pmids as [|pmid pmids IH]; intros k; [constructor|].
  rewrite imap_cons. constructor.
  - rewrite (imap_ext _ (fun index pmid => ((S k + index)%nat, paper_of net pmid)));
      [apply IH|]. intros i x _. cbn. f_equal. lia.
  - apply Forall_forall. intros x (i & y & -> & _)%elem_of_lookup_imap.
    unfold index_le. cbn. lia.
Qed.

Lemma enumerated_functional (pmids : list string) x y :
  x ∈ imap (fun index pmid => (index, paper_of net pmid)) pmids ->
  y ∈ imap (fun index pmid => (index, paper_of net pmid)) pmids ->
  fst x = fst y -> x = y.
Proof.
  intros (i & a & -> & Ha)%elem_of_lookup_imap
         (j & b & -> & Hb)%elem_of_lookup_imap Hij.
  cbn in Hij. subst j. rewrite Ha in Hb. by injection Hb as ->.
Qed.

Lemma stage_completes pick pmids sp q :
  session sp = SessionOpen ->
  result_queue sp = Some q ->
  queue q = [] ->
  room q (length pmids) ->
  (forall pmid, pmid ∈ pmids -> completes net pmid) ->
  exists sp',
    gather pick net (imap (fun index pmid => (index, pmid)) pmids) sp = (Ret tt, sp')
    /\ result_queue sp'
       = Some {| maxsize := maxsize q;
                 queue := imap (fun index pmid => (index, paper_of net pmid)) pmids |}
    /\ session sp' = SessionOpen.
Proof.
  intros Hs Hq Hempty Hroom Hall. unfold gather.
  destruct (gather_go_completes pick
              (length (imap (fun index pmid => (index, pmid)) pmids))
              (imap (fun index pmid => (index, pmid)) pmids) sp q)
    as (sp' & l & Hrun & Hq' & Hs' & _ & Hperm & Hsorted);
    [done | done | done | by rewrite length_imap | |].
  { apply Forall_forall. intros t (i & pmid & -> & Hi)%elem_of_lookup_imap.
    apply Hall. by eapply list_elem_of_lookup_2. }
  exists sp'. split; [done|]. split; [|done]. rewrite Hq'. do 2 f_equal.
  rewrite Hempty, enumerated_entries in Hperm. cbn in Hperm.
  apply (Sorted_unique_strong index_le); [| | |done].
  - intros x y Hx Hy Hxy Hyx. rewrite Hperm in Hx.
    apply (enumerated_functional pmids x y Hx Hy). unfold index_le in *. lia.
  - apply Hsorted. rewrite Hempty. constructor.
  - apply StronglySorted_Sorted, (enumerated_Sorted pmids 0).
Qed.

(** A task whose page is served without the article-details element: the
    [else] clause raises before any of the names of the record is bound,
    the [finally] clause then raises [UnboundLocalError] while building the
    tuple, and nothing is put. *)
Lemma getPagesInfo_no_details index pmid sp q :
  session sp = SessionOpen ->
  result_queue sp = Some q ->
  no_article_details net pmid ->
  getPagesInfo net index pmid sp
  = (Raise UnboundLocalError, send (GetDetail (base_url +:+ pmid)) sp).
Proof.
  intros Hs Hq (bs & Hget & Hnone). unfold getPagesInfo.
  rewrite Hs, Hget. cbn [fetch_details]. rewrite Hnone.
  cbn [result_queue send]. by rewrite Hq.
Qed.

Lemma completes_has_details pmid :
  completes net pmid -> no_article_details net pmid -> False.
Proof.
  unfold completes. intros Hdone (bs & Hget & Hnone).
  rewrite Hget in Hdone. cbn [fetch_details] in Hdone. by rewrite Hnone in Hdone.
Qed.

(** Whatever [pick] chooses, a stage one of whose pages is served without
    the article-details element ends with [UnboundLocalError]: the queue
    then holds the entries of tasks that completed before, fewer than
    there are tasks. *)
Lemma gather_go_no_details pick n : forall pending sp q,
  length pending = n ->
  session sp = SessionOpen ->
  result_queue sp = Some q ->
  room q n ->
  Forall (fun t => completes net (snd t) \/ no_article_details net (snd t))
    pending ->
  Exists (fun t => no_article_details net (snd t)) pending ->
  exists sp' l finished,
    gather_go pick net n pending sp = (Raise UnboundLocalError, sp')
    /\ result_queue sp' = Some {| maxsize := maxsize q; queue := l |}
    /\ session sp' = SessionOpen
    /\ l ≡ₚ queue q ++ (task_entry net <$> finished)
    /\ finished ⊆+ pending
    /\ Forall (fun t => completes net (snd t)) finished
    /\ (length finished < n)%nat.
Proof.
  induction n as [|n IH]; intros pending sp q Hlen Hs Hq Hroom Hall Hbad.
  - destruct pending; [|done]. by apply Exists_nil in Hbad.
  - cbn [gather_go].
    assert (pick pending mod length pending < length pending)%nat as Hk
      by (apply Nat.mod_upper_bound; lia).
    set (k := (pick pending mod length pending)%nat) in *. clearbody k.
    destruct (lookup_lt_is_Some_2 _ _ Hk) as [[index pmid] Ht].
    rewrite Ht.
    pose proof (delete_Permutation pending k _ Ht) as Hperm.
    destruct (proj1 (Forall_lookup _ _) Hall _ _ Ht) as [Hdone|Hnone];
      cbn [snd] in *.
    + rewrite (getPagesInfo_completes index pmid sp q n) by done.
      destruct (put_room (index, paper_of net pmid) q n Hroom) as [_ Hroom'].
      edestruct (IH (delete k pending))
        as (sp' & l & finished & -> & Hq' & Hs' & Hl & Hsub & Hfin & Hless);
        [ by rewrite length_delete, Hlen; [lia|eauto]
        | exact Hs | reflexivity | exact Hroom' | by apply Forall_delete | | ].
      { rewrite Hperm in Hbad. apply Exists_cons in Hbad as [Hbad|Hbad]; [|done].
        by destruct (completes_has_details pmid). }
      exists sp', l, ((index, pmid) :: finished). cbn [maxsize queue] in *.
      split; [done|]. split; [done|]. split; [done|]. split.
      { rewrite Hl, insert_entry_Permutation. cbn. by rewrite Permutation_middle. }
      split; [rewrite Hperm; by apply submseteq_skip|].
      split; [by constructor|]. cbn. lia.
    + rewrite (getPagesInfo_no_details index pmid sp q) by done.
      exists (send (GetDetail (base_url +:+ pmid)) sp), (queue q), [].
      cbn [result_queue send session]. split; [done|].
      split; [by destruct q|]. split; [done|].
      split; [by rewrite app_nil_r|]. split; [apply submseteq_nil_l|].
      split; [constructor|]. cbn. lia.
Qed.

End DetailStage.

(** ** [getAllPapers] *)

Section AllPapers.

Context `{Utils}.
Variable net : Net.

Lemma fetch_pages_total num fuel : forall acc sp,
  (0 < fuel)%nat ->
  (forall p, data sp !! "page" = Some (Int p) ->
             (num - 1) / 200 + 1 + 1 - p < Z.of_nat fuel) ->
  is_Some (fetch_pages fuel net num acc sp).
Proof.
  induction fuel as [|fuel IH]; intros acc sp Hpos Hfuel; [lia|].
  cbn [fetch_pages].
  destruct (data sp !! "page") as [[s|p]|] eqn:Hpage; [done| |done].
  destruct (Z.leb_spec p ((num - 1) / 200 + 1)) as [Hle|Hgt]; [|done].
  destruct (session sp); [done| |done].
  cbn [send data result_queue].
  destruct (get_search net (data sp)) as [e|bs]; [done|].
  destruct (search_results_chunk bs) as [text|].
  - destruct (length (split text) =? 1)%nat; [done|].
    specialize (Hfuel p eq_refl).
    apply IH; [lia|].
    cbn. intros p'. rewrite lookup_insert_eq. intros [= <-]. lia.
  - destruct (result_queue sp) as [q|]; [|done].
    by destruct (put _ _).
Qed.

Lemma fetch_pages_session num fuel : forall acc sp body l sp',
  fetch_pages fuel net num acc sp = Some (body, l, sp') ->
  session sp' = session sp.
Proof.
  induction fuel as [|fuel IH]; intros acc sp body l sp'; [done|].
  cbn [fetch_pages].
  destruct (data sp !! "page") as [[s|p]|]; [by intros [= _ _ <-]| |by intros [= _ _ <-]].
  destruct (p <=? (num - 1) / 200 + 1); [|by intros [= _ _ <-]].
  destruct (session sp) eqn:Hs; [by intros [= _ _ <-]| |by intros [= _ _ <-]].
  cbn [send data result_queue].
  destruct (get_search net (data sp)) as [e|bs]; [by intros [= _ _ <-]|].
  destruct (search_results_chunk bs) as [text|].
  - destruct (length (split text) =? 1)%nat; [by intros [= _ _ <-]|].
    intros Hrun. by rewrite (IH _ _ _ _ _ Hrun).
  - destruct (result_queue sp) as [q|]; [|by intros [= _ _ <-]].
    by destruct (put _ _); intros [= _ _ <-].
Qed.

Lemma getPMIDs_total num sp : is_Some (getPMIDs net num sp).
Proof.
  rewrite getPMIDs_eq.
  destruct (fetch_pages_total num (S (Z.to_nat ((num - 1) / 200 + 1))) []
              (set_data (listing_request (data sp) 1) sp))
    as [[[body l] sp'] ->]; [lia | |].
  - cbn. intros p. rewrite listing_request_page. intros [= <-]. lia.
  - by destruct body.
Qed.

Lemma getPMIDs_session num sp o sp' :
  getPMIDs net num sp = Some (o, sp') -> session sp' = session sp.
Proof.
  rewrite getPMIDs_eq.
  destruct (fetch_pages _ _ _ _ _) as [[[body l] sp1]|] eqn:Hrun; [|done].
  apply fetch_pages_session in Hrun. cbn in Hrun.
  by destruct body; intros [= _ <-].
Qed.

Lemma getAllPapers_eq pick q num sp :
  getAllPapers pick net q num sp
  = match getPMIDs net (Z.max num 1) (entered q sp) with
    | None => None
    | Some (Ret pmids, sp) =>
        match gather pick net (imap (fun index pmid => (index, pmid)) pmids) sp with
        | (Ret _, sp) => Some (Ret tt, set_session SessionDeleted sp)
        | stop => Some stop
        end
    | Some (Raise e, sp) => Some (Raise e, sp)
    | Some (Blocked, sp) => Some (Blocked, sp)
    end.
Proof.
  unfold getAllPapers, entered.
  by destruct sp as [dt rq [] l].
Qed.

Lemma getAllPapers_total pick q num sp : is_Some (getAllPapers pick net q num sp).
Proof.
  rewrite getAllPapers_eq.
  destruct (getPMIDs_total (Z.max num 1) (entered q sp)) as [[o sp'] ->].
  destruct o as [pmids|e|]; [|done..].
  by destruct (gather _ _ _ _) as [[[]| |] ?].
Qed.

(** When the first listing page has no identifier chunk, [getAllPapers]
    runs to its end: no exception reaches it, no paper is fetched, the
    queue holds the "not found" row. *)
Lemma getAllPapers_not_found pick q num sp bs :
  queue q = [] ->
  get_search net (listing_request (data sp) 1) = Html bs ->
  search_results_chunk bs = None ->
  exists sp',
    getAllPapers pick net q num sp = Some (Ret tt, sp')
    /\ result_queue sp'
       = Some {| maxsize := 1; queue := [(0%nat, not_found_row)] |}
    /\ sent sp' = sent sp ++ [GetSearch (listing_request (data sp) 1)].
Proof.
  intros Hempty Hget Hchunk. rewrite getAllPapers_eq.
  assert (1 <= (Z.max num 1 - 1) / 200 + 1)
    by (pose proof (Z.div_pos (Z.max num 1 - 1) 200); lia).
  rewrite (getPMIDs_not_found net (Z.max num 1) (entered q sp) 0 q bs)
    by (done || lia || (intros i ?; lia)).
  cbn [ids_from]. replace (slice_to [] (Z.max num 1)) with (@nil string)
    by (unfold slice_to; by destruct (0 <=? _); rewrite take_nil).
  eexists. split; [reflexivity|]. split; [done|]. cbn. by rewrite app_nil_r.
Qed.

(** [getAllPapers] over the identifiers [getPMIDs] returned: when the
    queue is still empty and has room for them and every task completes,
    the call returns and leaves the entries in the queue in rank order. *)
Lemma getAllPapers_completes pick q num sp pmids sp1 q1 :
  getPMIDs net (Z.max num 1) (entered q sp) = Some (Ret pmids, sp1) ->
  result_queue sp1 = Some q1 ->
  queue q1 = [] ->
  room q1 (length pmids) ->
  (forall pmid, pmid ∈ pmids -> completes net pmid) ->
  exists sp',
    getAllPapers pick net q num sp = Some (Ret tt, sp')
    /\ result_queue sp'
       = Some {| maxsize := maxsize q1;
                 queue := imap (fun index pmid => (index, paper_of net pmid)) pmids |}.
Proof.
  intros Hids Hq Hempty Hroom Hall. rewrite getAllPapers_eq, Hids.
  destruct (stage_completes net pick pmids sp1 q1) as (sp' & -> & Hq' & _);
    [|done..|by eauto].
  by rewrite (getPMIDs_session _ _ _ _ Hids).
Qed.


(** C1 (what the code does). A page that is served without its
    main.article-details element breaks the stage: the task of that paper
    puts no entry and raises [UnboundLocalError] from its [finally] clause
    (none of the names of the tuple is bound when the [else] clause has
    failed on [None]). In a batch whose other tasks complete, whatever the
    order of completion, the stage ends with that exception and the queue
    holds fewer than N entries, none of them at the index of that paper:
    reading out yields fewer than N entries, and the indices read are not
    0, 1, ..., N - 1. *)
Theorem detail_stage_page_without_details pick pmids sp q i pmid :
  session sp = SessionOpen ->
  result_queue sp = Some q ->
  queue q = [] ->
  maxsize q <= 0 \/ Z.of_nat (length pmids) <= maxsize q ->
  pmids !! i = Some pmid ->
  no_article_details net pmid ->
  (forall other, other ∈ pmids -> other <> pmid -> completes net other) ->
  getPagesInfo net i pmid sp
  = (Raise UnboundLocalError, send (GetDetail (base_url +:+ pmid)) sp)
  /\ exists sp' q',
       gather pick net (imap (fun index pmid => (index, pmid)) pmids) sp
       = (Raise UnboundLocalError, sp')
       /\ result_queue sp' = Some q'
       /\ (length (queue q') < length pmids)%nat
       /\ (i ∉ (queue q').*1)
       /\ (length (read_out (length pmids) q') < length pmids)%nat
       /\ (read_out (length pmids) q').*1 <> seq 0 (length pmids).
Proof.
  intros Hs Hq Hempty Hroom Hi Hnone Hothers.
  split; [by apply (getPagesInfo_no_details net i pmid sp q)|].
  unfold gather.
  destruct (gather_go_no_details net pick
              (length (imap (fun index pmid => (index, pmid)) pmids))
              (imap (fun index pmid => (index, pmid)) pmids) sp q)
    as (sp' & l & finished & Hrun & Hq' & _ & Hl & Hsub & Hfin & Hless);
    [done | done | done | | | |].
  { rewrite length_imap. unfold room. rewrite Hempty. cbn. lia. }
  { apply Forall_forall. intros t (j & other & -> & Hj)%elem_of_lookup_imap.
    cbn [snd]. destruct (decide (other = pmid)) as [->|Hne]; [by right|].
    left. apply Hothers; [|done]. by eapply list_elem_of_lookup_2. }
  { apply Exists_exists. exists (i, pmid). split; [|done].
    apply elem_of_lookup_imap. by exists i, pmid. }
  rewrite length_imap in Hless. rewrite Hempty in Hl. cbn [app] in Hl.
  assert (length l < length pmids)%nat as Hshort
    by (rewrite Hl, length_fmap; lia).
  exists sp', {| maxsize := maxsize q; queue := l |}.
  split; [done|]. split; [done|]. cbn [queue]. split; [done|].
  rewrite read_out_all by (cbn [queue]; lia). cbn [queue].
  split; [|split; [done|]].
  - rewrite Hl, <- list_fmap_compose.
    intros (t & Hfst & Ht)%list_elem_of_fmap. cbn in Hfst.
    pose proof (proj1 (Forall_forall _ _) Hfin t Ht) as Hdone.
    apply (elem_of_submseteq _ _ _ Ht) in Hsub.
    apply elem_of_lookup_imap in Hsub as (j & other & -> & Hj).
    cbn in Hfst, Hdone. subst j. rewrite Hi in Hj. injection Hj as <-.
    by destruct (completes_has_details net pmid).
  - intros Heq. apply (f_equal length) in Heq.
    rewrite length_fmap, length_seq in Heq. unfold entry in *. lia.
Qed.

(** C4 (amended). A task whose fetch raises an Exception returns without
    raising and puts one entry at its own index, whose title, authors,
    date, publication, abstract and doi are "Error" and whose link is the
    address of the paper's page. In a batch whose other tasks complete,
    the stage returns with one entry per identifier and that entry is read
    at the task's position. *)
Theorem fetch_error_gives_error_record pick pmids sp q i pmid e :
  session sp = SessionOpen ->
  result_queue sp = Some q ->
  queue q = [] ->
  maxsize q <= 0 \/ Z.of_nat (length pmids) <= maxsize q ->
  pmids !! i = Some pmid ->
  get_detail net (base_url +:+ pmid) = Fails e ->
  is_Exception e = true ->
  (forall other, other ∈ pmids -> other <> pmid -> completes net other) ->
  let record :=
    {| title := "Error"; authors := "Error"; date := "Error";
       publication := "Error"; abstract := "Error"; doi := "Error";
       web := base_url +:+ pmid |} in
  (exists sp1,
     getPagesInfo net i pmid sp = (Ret tt, sp1)
     /\ result_queue sp1
        = Some {| maxsize := maxsize q; queue := [(i, record)] |})
  /\ exists sp' q',
       gather pick net (imap (fun index pmid => (index, pmid)) pmids) sp
       = (Ret tt, sp')
       /\ result_queue sp' = Some q'
       /\ length (queue q') = length pmids
       /\ read_out (length pmids) q' !! i = Some (i, record).
Proof.
  intros Hs Hq Hempty Hroom Hi Hget Hexc Hothers record.
  assert (fetch_details (get_detail net (base_url +:+ pmid)) (base_url +:+ pmid)
          = (Some record, None)) as Hfetch
    by (by rewrite Hget; cbn; rewrite Hexc).
  assert (paper_of net pmid = record) as Hrecord
    by (unfold paper_of; by rewrite Hfetch).
  assert (completes net pmid) as Hdone
    by (unfold completes; by rewrite Hrecord).
  pose proof (lookup_lt_Some _ _ _ Hi) as Hlt.
  split.
  - eexists. split.
    + apply (getPagesInfo_completes net i pmid sp q 0); [done|done| |done].
      unfold room. rewrite Hempty. cbn. lia.
    + cbn. by rewrite Hempty, Hrecord.
  - destruct (stage_completes net pick pmids sp q) as (sp' & Hrun & Hq' & _);
      [done | done | done | unfold room; rewrite Hempty; cbn; lia | |].
    { intros other Hin. destruct (decide (other = pmid)) as [->|]; auto. }
    eexists sp', _. split; [done|]. split; [done|]. cbn [queue].
    rewrite length_imap. split; [done|].
    rewrite read_out_all by (cbn; by rewrite length_imap).
    cbn [queue]. by rewrite list_lookup_imap, Hi, <- Hrecord.
Qed.

(** The trace of [getAllPapers] when one paper is asked for: the request
    of listing page 1, then the request of the page of the first
    identifier listed, if there is one. *)
Lemma getAllPapers_one_paper pick q sp :
  exists o sp',
    getAllPapers pick net q 1 sp = Some (o, sp')
    /\ sent sp'
       = sent sp ++ GetSearch (listing_request (data sp) 1)
                    :: (detail_request <$> take 1 (page_ids net (data sp) 1)).
Proof.
  rewrite getAllPapers_eq, getPMIDs_eq.
  change (Z.max 1 1) with 1. change (S (Z.to_nat ((1 - 1) / 200 + 1))) with 2%nat.
  cbn [fetch_pages set_data data session entered set_session sent send
       result_queue set_result_queue].
  rewrite listing_request_page, lookup_insert_eq.
  change (1 <=? (1 - 1) / 200 + 1) with true.
  change (1 + 1 <=? (1 - 1) / 200 + 1) with false. cbv iota.
  unfold page_ids, listing_text.
  destruct (get_search net (listing_request (data sp) 1)) as [e|bs].
  { destruct e; by eexists _, _. }
  destruct (search_results_chunk bs) as [text|].
  2:{ destruct (put _ _); by eexists _, _. }
  rewrite app_nil_l.
  destruct (length (split text) =? 1)%nat.
  all: rewrite slice_to_take by lia; change (Z.to_nat 1) with 1%nat.
  all: destruct (split text) as [|pmid rest];
    [by eexists _, _|].
  all: cbn [take imap gather length gather_go]; rewrite Nat.mod_1_r.
  all: cbn [lookup list_lookup]; unfold getPagesInfo.
  all: cbn [session send set_data entered set_session set_result_queue
            result_queue sent data take imap length delete gather_go].
  all: destruct (fetch_details _ _) as [[p|] pending];
    [destruct (put _ _) as [q2|]; [destruct pending|]|].
  all: eexists _, _; (split; [reflexivity|]); cbn; by rewrite <- app_assoc.
Qed.

(** C10. A count [num <= 0] is clamped to 1 before the identifiers are
    fetched: [getPMIDs] is called with the count 1, whatever [num] was; the
    call does what the call with [num = 1] does, and it does end; the
    requests it issues are the one of listing page 1 and the one of the
    page of the first identifier listed there (if there is one), so a
    batch is never of size zero or below and never of more than one
    paper. *)
Theorem getAllPapers_clamps_count pick q num sp :
  num <= 0 ->
  getAllPapers pick net q num sp
  = match getPMIDs net 1 (entered q sp) with
    | None => None
    | Some (Ret pmids, sp) =>
        match gather pick net (imap (fun index pmid => (index, pmid)) pmids) sp with
        | (Ret _, sp) => Some (Ret tt, set_session SessionDeleted sp)
        | stop => Some stop
        end
    | Some (Raise e, sp) => Some (Raise e, sp)
    | Some (Blocked, sp) => Some (Blocked, sp)
    end
  /\ getAllPapers pick net q num sp = getAllPapers pick net q 1 sp
  /\ exists o sp',
       getAllPapers pick net q num sp = Some (o, sp')
       /\ sent sp'
          = sent sp ++ GetSearch (listing_request (data sp) 1)
                       :: (detail_request <$> take 1 (page_ids net (data sp) 1)).
Proof.
  intros Hnum.
  assert (getAllPapers pick net q num sp = getAllPapers pick net q 1 sp) as Hone
    by (rewrite !getAllPapers_eq; by rewrite !Z.max_r by lia).
  split; [|split; [exact Hone|]].
  - rewrite getAllPapers_eq. by rewrite Z.max_r by lia.
  - rewrite Hone. apply getAllPapers_one_paper.
Qed.

End AllPapers.

(** ** [parseData] and [getTotalPaperNum] *)

Section Query.

Lemma append_String c s t : String c s +:+ t = String c (s +:+ t).
Proof. reflexivity. Qed.

Lemma append_nil_l s : EmptyString +:+ s = s.
Proof. reflexivity. Qed.

Lemma append_nil_r s : s +:+ EmptyString = s.
Proof. induction s as [|c s IH]; [done|]. by rewrite append_String, IH. Qed.

Lemma append_assoc s t u : (s +:+ t) +:+ u = s +:+ (t +:+ u).
Proof.
  induction s as [|c s IH]; [done|]. by rewrite !append_String, IH.
Qed.

(** C7 (amended). The term of the payload is the keyword (always, even
    when it is empty), then the clause of the years when both years are
    given, then the clause of the author when one is given, then the
    clause of the journal when one is given, in this order and joined by
    " AND ". *)
Theorem parseData_term keyword start_year end_year author journal sorting :
  parseData keyword start_year end_year author journal sorting !! "term"
  = Some (Str (keyword
               +:+ (if truthy start_year && truthy end_year
                    then " AND " +:+ start_year +:+ ":" +:+ end_year +:+ "[dp]"
                    else EmptyString)
               +:+ (if truthy author
                    then " AND " +:+ author +:+ "[author]" else EmptyString)
               +:+ (if truthy journal
                    then " AND " +:+ journal +:+ "[journal]" else EmptyString))).
Proof.
  unfold parseData.
  destruct (startswith _ sorting), (endswith _ sorting);
    repeat (rewrite lookup_insert_ne by done); rewrite lookup_insert_eq;
    do 2 f_equal;
    destruct (truthy start_year), (truthy end_year), (truthy author),
      (truthy journal); cbn;
    by rewrite ?append_nil_l, ?append_nil_r, ?append_assoc.
Qed.

(** C8 (amended). [getTotalPaperNum] raises the "timeout" [TipException]
    when the request times out, and a page that was fetched never makes it
    raise a [TipException]: on a single-result redirect page it returns
    the count 1 without looking for the results amount, and on a page
    whose results amount has no count it returns the count 0. *)
Theorem getTotalPaperNum_counts net sp :
  let request := <["format" := Str "summary"]> (data sp) in
  let result := fst (getTotalPaperNum net sp) in
  (get_search net request = Fails TimeoutError ->
   result = Raise (TipException "连接超时"))
  /\ (forall bs, get_search net request = Html bs ->
        (forall msg, result <> Raise (TipException msg))
        /\ (single_result_redirect_message bs = true ->
            result = Ret "共找到1篇")
        /\ (single_result_redirect_message bs = false ->
            results_amount bs = Some None ->
            result = Ret "共找到0篇")).
Proof.
  cbn zeta. unfold getTotalPaperNum. cbn [send data set_data]. split.
  - by intros ->.
  - intros bs ->. destruct (single_result_redirect_message bs).
    + by repeat split.
    + destruct (results_amount bs) as [[text|]|]; repeat split; try done.
Qed.

End Query.

(** ** The DOI file *)

Section DoiFile.

Import Menu.

Lemma visible_not_space c : visible c = true -> is_space c = false.
Proof.
  unfold visible, is_space. cbv zeta. intros [H1 H2]%andb_prop.
  apply Nat.leb_le in H1, H2. revert H1 H2.
  generalize (nat_of_ascii c). intros n H1 H2.
  destruct (Nat.leb_spec 9 n), (Nat.leb_spec n 13), (Nat.leb_spec 28 n),
    (Nat.leb_spec n 31), (Nat.eqb_spec n 32); cbn; try done; lia.
Qed.

Lemma startswith_append p : forall s t,
  startswith p s = true -> startswith p (s +:+ t) = true.
Proof.
  unfold startswith.
  induction p as [|c p IH]; intros s t; [intros _; by destruct (s +:+ t)|].
  destruct s as [|c' s]; [done|]. rewrite append_String. cbn.
  destruct (ascii_dec c c'); [apply IH|done].
Qed.

Lemma rstrip_spaces s : string_forall is_space s = true -> rstrip s = EmptyString.
Proof.
  induction s as [|c s IH]; [done|]. cbn.
  intros [Hc Hs]%andb_prop. by rewrite IH, Hc.
Qed.

Lemma rstrip_token s ending :
  string_forall visible s = true ->
  string_forall is_space ending = true ->
  rstrip (s +:+ ending) = s.
Proof.
  intros Hs Hend. induction s as [|c s IH].
  - rewrite append_nil_l. by apply rstrip_spaces.
  - cbn in Hs. apply andb_prop in Hs as [Hc Hs].
    rewrite append_String. cbn [rstrip]. rewrite IH by done.
    destruct s; [|done]. by rewrite (visible_not_space c).
Qed.

Lemma lstrip_token s t :
  identifier s = true -> lstrip (s +:+ t) = s +:+ t.
Proof.
  unfold identifier. intros [Hp Hv]%andb_prop.
  destruct s as [|c s]; [done|]. cbn in Hv. apply andb_prop in Hv as [Hc _].
  rewrite append_String. cbn. by rewrite (visible_not_space c).
Qed.

Lemma strip_identifier_line id ending :
  identifier id = true ->
  string_forall is_space ending = true ->
  strip (id +:+ ending) = id.
Proof.
  intros Hid Hend. unfold strip. rewrite lstrip_token by done.
  apply rstrip_token; [|done]. by apply andb_prop in Hid as [_ ?].
Qed.

Lemma strip_identifier id : identifier id = true -> strip id = id.
Proof.
  intros Hid. rewrite <- (append_nil_r id) at 1.
  by apply strip_identifier_line.
Qed.

(** The loop appends to what was loaded before. *)
Lemma load_dois_app dois : forall details,
  load_dois dois details = details ++ load_dois dois [].
Proof.
  induction dois as [|doi dois IH]; intros details; cbn [load_dois].
  - by rewrite app_nil_r.
  - destruct (startswith "10." doi); cbn [negb]; [|apply IH].
    rewrite IH, (IH ([] ++ _)). by rewrite app_assoc.
Qed.

Lemma load_dois_lines file :
  Forall (fun l => well_formed l = true) file ->
  load_dois (line_text <$> file) []
  = (fun id => [Some id; None; Some id; None]) <$> identifiers file.
Proof.
  induction 1 as [|l file Hl _ IH]; [done|].
  cbn [fmap list_fmap load_dois identifiers omap list_omap].
  destruct l as [id ending|text]; cbn [line_text well_formed] in *.
  - apply andb_prop in Hl as [Hid Hend].
    rewrite startswith_append by (by apply andb_prop in Hid as [? _]).
    cbn [negb]. rewrite load_dois_app, strip_identifier_line by done.
    rewrite strip_identifier by done. by rewrite IH.
  - apply negb_true_iff in Hl. rewrite Hl. cbn [negb]. apply IH.
Qed.

(** C9. A file of M identifier lines interleaved with garbage lines gives
    exactly M detail lists, in the order of the file, each with its title
    and its doi equal to the identifier of its line; the garbage lines
    leave nothing. *)
Theorem doi_file_round_trip file :
  Forall (fun l => well_formed l = true) file ->
  exists details,
    downloadByDoiFile (Some (line_text <$> file)) = Some details
    /\ length details = length (identifiers file)
    /\ Forall2 (fun id d => d = [Some id; None; Some id; None]
                            /\ detail_title d = Some id
                            /\ detail_doi d = Some id)
         (identifiers file) details.
Proof.
  intros Hfile. eexists. split; [|split].
  - cbn. by rewrite load_dois_lines.
  - by rewrite length_fmap.
  - apply Forall2_fmap_r, Forall_Forall2_diag, Forall_forall.
    by intros id _.
Qed.

End DoiFile.

(** ** The statements at sample inputs *)

Section Samples.

#[local] Existing Instance std_utils.

Local Ltac each_member H :=
  repeat (apply elem_of_cons in H as [->|H]); [..|by apply elem_of_nil in H].

Local Ltac first_page i Hi :=
  assert (i = 0%nat) as -> by lia; clear Hi.


(** Three papers, the last task completing first, the page of paper 2
    served without its article-details element: the stage raises and the
    queue holds fewer than three entries, none at index 1. *)
Lemma detail_stage_page_without_details_witness :
  session sample_spider = SessionOpen
  /\ result_queue sample_spider = Some sample_queue
  /\ queue sample_queue = []
  /\ sample_pmids !! 1%nat = Some "2"
  /\ no_article_details (bare_page_net []) "2"
  /\ (forall other, other ∈ sample_pmids -> other <> "2" ->
        completes (bare_page_net []) other)
  /\ getPagesInfo (bare_page_net []) 1 "2" sample_spider
     = (Raise UnboundLocalError, send (GetDetail (base_url +:+ "2")) sample_spider)
  /\ exists sp' q',
       gather last_first (bare_page_net [])
         (imap (fun index pmid => (index, pmid)) sample_pmids) sample_spider
       = (Raise UnboundLocalError, sp')
       /\ result_queue sp' = Some q'
       /\ (length (queue q') < length sample_pmids)%nat
       /\ (1%nat ∉ (queue q').*1)
       /\ (length (read_out (length sample_pmids) q') < length sample_pmids)%nat
       /\ (read_out (length sample_pmids) q').*1 <> seq 0 (length sample_pmids).
Proof.
  assert (no_article_details (bare_page_net []) "2") as Hnone
    by (by exists {| main_article_details := None |}).
  assert (forall other, other ∈ sample_pmids -> other <> "2" ->
            completes (bare_page_net []) other) as Hothers
    by (intros other Hin Hne; each_member Hin; done).
  split; [reflexivity|]. split; [reflexivity|]. split; [reflexivity|].
  split; [reflexivity|]. split; [exact Hnone|]. split; [exact Hothers|].
  apply (detail_stage_page_without_details (bare_page_net []) last_first
           sample_pmids sample_spider sample_queue 1 "2");
    [reflexivity | reflexivity | reflexivity | right; by vm_compute
    | reflexivity | exact Hnone | exact Hothers].
Defined.

(** The same batch through [getAllPapers]: the listing names the papers 1,
    2 and 3, the task of paper 3 completes first and puts its entry, the
    task of paper 2 raises; the call ends with that exception, the queue
    holds one entry instead of three, and the session is left open. *)
Example page_without_details_ends_the_run :
  exists sp' p,
    getAllPapers last_first (bare_page_net [Some sample_listing]) sample_queue 3
      main_spider = Some (Raise UnboundLocalError, sp')
    /\ result_queue sp' = Some {| maxsize := 3; queue := [(2%nat, p)] |}
    /\ session sp' = SessionOpen.
Proof. eexists _, _. repeat split; by vm_compute. Qed.

(** The first listing page has no identifier chunk. *)
Lemma getPMIDs_not_found_returns_witness :
  1 <= 5
  /\ session sample_spider = SessionOpen
  /\ result_queue sample_spider = Some sample_queue
  /\ queue sample_queue = []
  /\ exists sp',
       getPMIDs no_results_net 5 sample_spider = Some (Ret [], sp')
       /\ result_queue sp'
          = Some {| maxsize := 1; queue := [(0%nat, not_found_row)] |}
       /\ sent sp'
          = sent sample_spider
            ++ [GetSearch (listing_request (data sample_spider) 1)].
Proof.
  split; [lia|]. split; [reflexivity|]. split; [reflexivity|].
  split; [reflexivity|].
  apply (getPMIDs_not_found_returns no_results_net 5 sample_spider sample_queue
           {| single_result_redirect_message := false;
              results_amount := Some None;
              search_results_chunk := None |});
    [lia | reflexivity | reflexivity | reflexivity | reflexivity | reflexivity].
Defined.



(** 201 identifiers asked for, a full first page and one identifier on the
    second: two requests, 201 identifiers. *)
Lemma getPMIDs_exact_count_witness :
  1 <= 201
  /\ session sample_spider = SessionOpen
  /\ Z.of_nat 2 = ceil_div_200 201
  /\ exists ids sp',
       getPMIDs (sample_net [Some (chunk_of 200); Some (chunk_of 1)]) 201
         sample_spider = Some (Ret ids, sp')
       /\ ids = take (Z.to_nat 201)
                  (ids_from (sample_net [Some (chunk_of 200); Some (chunk_of 1)])
                     (data sample_spider) 1 2)
       /\ Z.of_nat (length ids) = 201
       /\ sent sp' = sent sample_spider ++ requests_from (data sample_spider) 1 2
       /\ Z.of_nat (length (requests_from (data sample_spider) 1 2))
          = ceil_div_200 201.
Proof.
  split; [lia|]. split; [reflexivity|]. split; [by vm_compute|].
  apply (getPMIDs_exact_count
           (sample_net [Some (chunk_of 200); Some (chunk_of 1)]) 201
           sample_spider 1);
    [lia | reflexivity | by vm_compute | |].
  - intros i Hi. first_page i Hi. exists (chunk_of 200). by vm_compute.
  - exists (chunk_of 1). by vm_compute.
Defined.

(** 500 identifiers asked for, three on page 1, a timeout on page 2: the
    three identifiers of page 1 are returned. *)
Lemma getPMIDs_at_most_requested_witness :
  0 <= 500
  /\ (forall q, result_queue sample_spider = Some q -> queue q = [])
  /\ get_search (sample_net [Some (chunk_of 3)])
       (listing_request (data sample_spider) (1 + Z.of_nat 1))
     = Fails TimeoutError
  /\ exists ids sp',
       getPMIDs (sample_net [Some (chunk_of 3)]) 500 sample_spider
       = Some (Ret ids, sp')
       /\ ids = take (Z.to_nat 500)
                  (accumulated (sample_net [Some (chunk_of 3)]) 500 sample_spider)
       /\ ids `prefix_of` accumulated (sample_net [Some (chunk_of 3)]) 500 sample_spider
       /\ Z.of_nat (length ids) <= 500
       /\ ids = take (Z.to_nat 500)
                  (ids_from (sample_net [Some (chunk_of 3)]) (data sample_spider) 1 1)
       /\ length ids
          = Nat.min (Z.to_nat 500)
              (length (ids_from (sample_net [Some (chunk_of 3)])
                         (data sample_spider) 1 1))
       /\ sent sp' = sent sample_spider ++ requests_from (data sample_spider) 1 2.
Proof.
  assert (forall q, result_queue sample_spider = Some q -> queue q = [])
    as Hq by (by intros q [= <-]).
  split; [lia|]. split; [exact Hq|]. split; [by vm_compute|].
  destruct (getPMIDs_at_most_requested (sample_net [Some (chunk_of 3)]) 500
              sample_spider ltac:(lia) Hq)
    as (ids & sp' & Hrun & Hacc & Hpre & Hlen & Hfail).
  exists ids, sp'. split; [exact Hrun|]. split; [exact Hacc|].
  split; [exact Hpre|]. split; [exact Hlen|].
  apply (Hfail 1%nat TimeoutError); [reflexivity | by vm_compute | | by vm_compute].
  intros i Hi. first_page i Hi. exists (chunk_of 3). by vm_compute.
Defined.

(** The same run, spelled out. *)
Example timeout_keeps_first_page :
  exists sp',
    getPMIDs (sample_net [Some (chunk_of 3)]) 500 sample_spider
    = Some (Ret ["30049270"; "30049270"; "30049270"], sp')
    /\ get_search (sample_net [Some (chunk_of 3)])
         (listing_request (data sample_spider) 2) = Fails TimeoutError.
Proof. eexists. split; by vm_compute. Qed.

(** C4, as worded, fails: the record of a paper whose fetch timed out holds
    the address of the paper's page in its last field, not "Error". *)
Lemma error_record_keeps_link :
  exists sp' p,
    getPagesInfo (sample_net []) 1 "2" sample_spider = (Ret tt, sp')
    /\ result_queue sp' = Some {| maxsize := 3; queue := [(1%nat, p)] |}
    /\ title p = "Error"
    /\ web p = "https://pubmed.ncbi.nlm.nih.gov/2"
    /\ web p <> "Error".
Proof. eexists _, _. repeat split; by vm_compute. Qed.

(** A page without its article-details element: the task raises from its
    [finally] clause and hands nothing to the queue. *)
Example page_without_article_details :
  getPagesInfo
    {| get_search := serve_listing [];
       get_detail := fun _ => Html {| main_article_details := None |} |}
    0 "1" sample_spider
  = (Raise UnboundLocalError,
     send (GetDetail "https://pubmed.ncbi.nlm.nih.gov/1") sample_spider).
Proof. reflexivity. Qed.

(** The query of the module's [__main__] block. *)
Example main_query :
  data main_spider
  = {[ "term" := Str "crispr AND 2010:2020[dp] AND Martin[author] AND nature[journal]" ]}.
Proof. by vm_compute. Qed.

Lemma fetch_error_gives_error_record_witness :
  session sample_spider = SessionOpen
  /\ result_queue sample_spider = Some sample_queue
  /\ queue sample_queue = []
  /\ sample_pmids !! 1%nat = Some "2"
  /\ get_detail (sample_net []) (base_url +:+ "2") = Fails TimeoutError
  /\ is_Exception TimeoutError = true
  /\ (exists sp1,
        getPagesInfo (sample_net []) 1 "2" sample_spider = (Ret tt, sp1)
        /\ result_queue sp1
           = Some {| maxsize := maxsize sample_queue;
                     queue := [(1%nat,
                                {| title := "Error"; authors := "Error";
                                   date := "Error"; publication := "Error";
                                   abstract := "Error"; doi := "Error";
                                   web := base_url +:+ "2" |})] |})
     /\ exists sp' q',
          gather last_first (sample_net [])
            (imap (fun index pmid => (index, pmid)) sample_pmids) sample_spider
          = (Ret tt, sp')
          /\ result_queue sp' = Some q'
          /\ length (queue q') = length sample_pmids
          /\ read_out (length sample_pmids) q' !! 1%nat
             = Some (1%nat,
                     {| title := "Error"; authors := "Error";
                        date := "Error"; publication := "Error";
                        abstract := "Error"; doi := "Error";
                        web := base_url +:+ "2" |}).
Proof.
  split; [reflexivity|]. split; [reflexivity|]. split; [reflexivity|].
  split; [reflexivity|]. split; [reflexivity|]. split; [reflexivity|].
  apply (fetch_error_gives_error_record (sample_net []) last_first sample_pmids
           sample_spider sample_queue 1 "2" TimeoutError);
    [reflexivity | reflexivity | reflexivity | right; by vm_compute
    | reflexivity | reflexivity | reflexivity |].
  intros other Hin Hne. each_member Hin; done.
Defined.

(** Three papers listed, -3 asked for: one listing request, one paper. *)
Lemma getAllPapers_clamps_count_witness :
  -3 <= 0
  /\ getAllPapers last_first (sample_net [Some (chunk_of 3)]) sample_queue (-3)
       main_spider
     = match getPMIDs (sample_net [Some (chunk_of 3)]) 1
               (entered sample_queue main_spider) with
       | None => None
       | Some (Ret pmids, sp) =>
           match gather last_first (sample_net [Some (chunk_of 3)])
                   (imap (fun index pmid => (index, pmid)) pmids) sp with
           | (Ret _, sp) => Some (Ret tt, set_session SessionDeleted sp)
           | stop => Some stop
           end
       | Some (Raise e, sp) => Some (Raise e, sp)
       | Some (Blocked, sp) => Some (Blocked, sp)
       end
  /\ getAllPapers last_first (sample_net [Some (chunk_of 3)]) sample_queue (-3)
       main_spider
     = getAllPapers last_first (sample_net [Some (chunk_of 3)]) sample_queue 1
         main_spider
  /\ exists o sp',
       getAllPapers last_first (sample_net [Some (chunk_of 3)]) sample_queue (-3)
         main_spider = Some (o, sp')
       /\ sent sp'
          = sent main_spider
            ++ GetSearch (listing_request (data main_spider) 1)
               :: (detail_request
                   <$> take 1 (page_ids (sample_net [Some (chunk_of 3)])
                                 (data main_spider) 1)).
Proof.
  split; [lia|].
  apply (getAllPapers_clamps_count (sample_net [Some (chunk_of 3)]) last_first
           sample_queue (-3) main_spider). lia.
Defined.

(** The same run, spelled out: of the three papers listed the first is
    fetched, and only that one. *)
Example negative_count_fetches_one_paper :
  exists sp' p,
    getAllPapers last_first (sample_net [Some (chunk_of 3)]) sample_queue (-3)
      main_spider = Some (Ret tt, sp')
    /\ result_queue sp' = Some {| maxsize := 3; queue := [(0%nat, p)] |}
    /\ sent sp'
       = [GetSearch (listing_request (data main_spider) 1);
          GetDetail "https://pubmed.ncbi.nlm.nih.gov/30049270"].
Proof. eexists _, _. repeat split; by vm_compute. Qed.

(** C7, as worded, fails: with an empty keyword the keyword clause is
    still there, as an empty first clause. *)
Lemma empty_keyword_clause_kept :
  parseData EmptyString EmptyString EmptyString "Martin" EmptyString EmptyString
    !! "term" = Some (Str " AND Martin[author]")
  /\ spec_term EmptyString EmptyString EmptyString "Martin" = "Martin[author]"
  /\ parseData EmptyString EmptyString EmptyString "Martin" EmptyString EmptyString
       !! "term"
     <> Some (Str (spec_term EmptyString EmptyString EmptyString "Martin")).
Proof. repeat split; by vm_compute. Qed.

(** C8, as worded, fails: on a page that reports no results the call
    returns the count 0; it does not raise. *)
Lemma no_results_page_counts_zero :
  fst (getTotalPaperNum no_results_net main_spider) = Ret "共找到0篇"
  /\ forall e, fst (getTotalPaperNum no_results_net main_spider) <> Raise e.
Proof. split; [by vm_compute|]. intros e. by vm_compute. Qed.

Lemma doi_file_round_trip_witness :
  Forall (fun l => well_formed l = true) sample_file
  /\ exists details,
       Menu.downloadByDoiFile (Some (line_text <$> sample_file)) = Some details
       /\ length details = length (identifiers sample_file)
       /\ Forall2 (fun id d => d = [Some id; None; Some id; None]
                               /\ Menu.detail_title d = Some id
                               /\ Menu.detail_doi d = Some id)
            (identifiers sample_file) details.
Proof.
  assert (Forall (fun l => well_formed l = true) sample_file) as Hfile
    by (repeat constructor).
  split; [exact Hfile|]. apply (doi_file_round_trip sample_file Hfile).
Defined.

(** The same file, spelled out. *)
Example sample_file_details :
  Menu.downloadByDoiFile (Some (line_text <$> sample_file))
  = Some [[Some "10.1000/182"; None; Some "10.1000/182"; None];
          [Some "10.1038/nphys1170"; None; Some "10.1038/nphys1170"; None]].
Proof. reflexivity. Qed.

End Samples.

(** ** Every run of [getPMIDs] *)

Section Trace.

Context `{Utils}.
Variable net : Net.
Variable num : Z.
Variable d : gmap string value.

(** Every run of the loop, whatever the pages hold: the requests issued
    are those of [k] consecutive pages, the list has grown by the
    identifiers of the first [j] of them, the cursor has moved over [c] of
    them, and the session attribute is as it was. *)
Lemma fetch_pages_trace fuel : forall p acc sp o l sp',
  data sp = listing_request d p ->
  fetch_pages fuel net num acc sp = Some (o, l, sp') ->
  exists k j c : nat,
    sent sp' = sent sp ++ requests_from d p k
    /\ l = acc ++ ids_from net d p j
    /\ data sp' = listing_request d (p + Z.of_nat c)
    /\ (c <= j <= k)%nat /\ (k <= S c)%nat
    /\ p + Z.of_nat k <= Z.max ((num - 1) / 200 + 1 + 1) p
    /\ session sp' = session sp.
Proof.
  induction fuel as [|fuel IH]; intros p acc sp o l sp' Hd; [done|].
  cbn [fetch_pages]. rewrite Hd, listing_request_page.
  destruct (Z.leb_spec p ((num - 1) / 200 + 1)) as [Hle|Hgt].
  2:{ intros [= <- <- <-]. exists 0%nat, 0%nat, 0%nat. cbn.
      rewrite !app_nil_r, Z.add_0_r. repeat split; try done; lia. }
  destruct (session sp) eqn:Hs.
  1,3: intros [= <- <- <-]; exists 0%nat, 0%nat, 0%nat; cbn;
       rewrite !app_nil_r, Z.add_0_r; repeat split; try done; lia.
  cbn [send data result_queue]. rewrite Hd.
  destruct (get_search net (listing_request d p)) as [e|bs] eqn:Hget.
  { intros [= <- <- <-]. exists 1%nat, 0%nat, 0%nat. cbn.
    rewrite !app_nil_r, Z.add_0_r. repeat split; try done; lia. }
  destruct (search_results_chunk bs) as [text|] eqn:Hchunk.
  - assert (page_ids net d p = split text) as Hids
      by (unfold page_ids, listing_text; by rewrite Hget, Hchunk).
    destruct (length (split text) =? 1)%nat.
    + intros [= <- <- <-]. exists 1%nat, 1%nat, 0%nat. cbn.
      rewrite Hids, !app_nil_r, Z.add_0_r. repeat split; try done; lia.
    + rewrite listing_request_next. intros Hrun.
      apply (IH (p + 1)) in Hrun
        as (k & j & c & Hsent & Hl & Hdata & Hcj & Hkc & Hk & Hsess); [|done].
      exists (S k), (S j), (S c). cbn in Hsent, Hsess. cbn [ids_from requests_from].
      rewrite Hids, Hsent, Hl, Hdata, Hsess, <- !app_assoc.
      repeat split; try done; try lia. f_equal. lia.
  - destruct (result_queue sp) as [q|].
    + destruct (put _ _); intros [= <- <- <-]; exists 1%nat, 0%nat, 0%nat; cbn;
        rewrite !app_nil_r, Z.add_0_r; repeat split; try done; lia.
    + intros [= <- <- <-]. exists 1%nat, 0%nat, 0%nat. cbn.
      rewrite !app_nil_r, Z.add_0_r. repeat split; try done; lia.
Qed.

End Trace.

Section EveryRun.

Context `{Utils}.
Variable net : Net.
Variable num : Z.
Variable sp : Spider.

Lemma getPMIDs_run :
  exists body l sp' (k j c : nat),
    getPMIDs_try net num sp = Some (body, l, sp')
    /\ getPMIDs net num sp
       = Some (match body with
               | Blocked => Blocked
               | _ => Ret (slice_to l num)
               end, sp')
    /\ sent sp' = sent sp ++ requests_from (data sp) 1 k
    /\ l = ids_from net (data sp) 1 j
    /\ data sp' = listing_request (data sp) (1 + Z.of_nat c)
    /\ (c <= j <= k)%nat /\ (k <= S c)%nat
    /\ Z.of_nat k <= Z.max ((num - 1) / 200 + 1) 0
    /\ session sp' = session sp.
Proof.
  destruct (fetch_pages_total net num (S (Z.to_nat ((num - 1) / 200 + 1))) []
              (set_data (listing_request (data sp) 1) sp))
    as [[[body l] sp'] Hrun]; [lia | |].
  { cbn. intros p. rewrite listing_request_page. intros [= <-]. lia. }
  destruct (fetch_pages_trace net num (data sp) _ 1 []
              (set_data (listing_request (data sp) 1) sp) _ _ _ eq_refl Hrun)
    as (k & j & c & Hsent & Hl & Hdata & Hcj & Hkc & Hk & Hsess).
  exists body, l, sp', k, j, c.
  rewrite getPMIDs_eq, getPMIDs_try_eq, Hrun.
  split; [done|]. split; [by destruct body|].
  repeat split; try done; lia.
Qed.

(** X1. [getPMIDs] never raises: whatever the pages answer and whatever
    state the spider is in, the call ends by returning a list or waits in
    [put]; a timeout, a missing chunk or any other exception of the [try]
    block does not reach the caller. *)
Theorem getPMIDs_never_raises :
  exists o sp', getPMIDs net num sp = Some (o, sp') /\ forall e, o <> Raise e.
Proof.
  destruct getPMIDs_run as (body & l & sp' & k & j & c & _ & -> & _).
  eexists _, _. split; [done|]. by destruct body.
Qed.

(** X2. The requests [getPMIDs] issues are those of the listing pages
    1, 2, ..., k in this order, each with size 200 and format pmid, and k
    is at most [(num - 1) // 200 + 1]; the list it returns is made of the
    identifiers of pages 1 to j in the provider's order, cut to [num],
    where j is k or k - 1 (the last page asked for gave nothing). *)
Theorem getPMIDs_requests_in_page_order :
  exists o sp' (k j : nat),
    getPMIDs net num sp = Some (o, sp')
    /\ sent sp' = sent sp ++ requests_from (data sp) 1 k
    /\ Z.of_nat k <= Z.max ((num - 1) / 200 + 1) 0
    /\ (j <= k <= S j)%nat
    /\ (o = Blocked \/ o = Ret (slice_to (ids_from net (data sp) 1 j) num)).
Proof.
  destruct getPMIDs_run
    as (body & l & sp' & k & j & c & _ & -> & Hsent & -> & _ & Hcj & Hkc & Hk & _).
  eexists _, sp', k, j. split; [done|]. split; [done|]. split; [done|].
  split; [lia|]. destruct body; auto.
Qed.

(** X3. [getPMIDs] leaves the query as it was: in the spider's payload
    only the keys size, format and page are written (size 200, format
    pmid, page between 1 and one past the last page asked for); the term
    and every other key keep their values, and the session attribute is
    not touched. *)
Theorem getPMIDs_keeps_query :
  exists o sp' (c : nat),
    getPMIDs net num sp = Some (o, sp')
    /\ data sp' !! "size" = Some (Str "200")
    /\ data sp' !! "format" = Some (Str "pmid")
    /\ data sp' !! "page" = Some (Int (1 + Z.of_nat c))
    /\ Z.of_nat c <= Z.max ((num - 1) / 200 + 1) 0
    /\ (forall key, key <> "size" -> key <> "format" -> key <> "page" ->
          data sp' !! key = data sp !! key)
    /\ session sp' = session sp.
Proof.
  destruct getPMIDs_run
    as (body & l & sp' & k & j & c & _ & -> & _ & _ & Hdata & Hcj & Hkc & Hk & Hsess).
  eexists _, sp', c. split; [done|]. rewrite Hdata. unfold listing_request.
  split; [by rewrite !lookup_insert_ne, lookup_insert_eq by done|].
  split; [by rewrite lookup_insert_ne, lookup_insert_eq by done|].
  split; [by rewrite lookup_insert_eq|]. split; [lia|]. split; [|done].
  intros key Hsize Hformat Hpage. by rewrite !lookup_insert_ne by done.
Qed.

(** X4. Without work to do or without a session, nothing is asked: when
    [num <= 0], or when [self.session] is not an open session, [getPMIDs]
    returns the empty list, issues no request and leaves the queue alone. *)
Theorem getPMIDs_nothing_asked :
  num <= 0 \/ session sp <> SessionOpen ->
  exists sp',
    getPMIDs net num sp = Some (Ret [], sp')
    /\ sent sp' = sent sp
    /\ result_queue sp' = result_queue sp.
Proof.
  intros Hidle. rewrite getPMIDs_eq.
  assert (slice_to (@nil string) num = []) as Hnil
    by (unfold slice_to; by destruct (0 <=? num); rewrite take_nil).
  destruct (Z.leb_spec 1 ((num - 1) / 200 + 1)) as [Hle|Hgt].
  - destruct Hidle as [Hnum|Hs].
    { pose proof (Z.div_lt_upper_bound (num - 1) 200 0). lia. }
    cbn [fetch_pages set_data data session]. rewrite listing_request_page.
    destruct (Z.leb_spec 1 ((num - 1) / 200 + 1)); [|lia].
    destruct (session sp); [|done|]; rewrite Hnil; by eexists.
  - rewrite (fetch_pages_done net num (data sp) _ 1) by (done || lia).
    rewrite Hnil. by eexists.
Qed.

End EveryRun.

(** ** What a task and a stage leave alone *)

Section Frames.

Context `{Utils}.
Variable net : Net.

Lemma insert_entry_cases e q :
  put e q = None /\ full q = true
  \/ put e q = Some {| maxsize := maxsize q; queue := insert_entry e (queue q) |}
     /\ full q = false.
Proof. unfold put. destruct (full q); auto. Qed.

Lemma getPagesInfo_emits_at_most_one_aux index pmid sp q :
  result_queue sp = Some q ->
  exists o sp' q',
    getPagesInfo net index pmid sp = (o, sp')
    /\ data sp' = data sp /\ session sp' = session sp
    /\ result_queue sp' = Some q' /\ maxsize q' = maxsize q
    /\ (queue q' = queue q
        \/ exists p, queue q' = insert_entry (index, p) (queue q)).
Proof.
  intros Hq. unfold getPagesInfo.
  destruct (session sp) eqn:Hs;
    destruct (fetch_details _ _) as [[p|] pending]; cbn [result_queue send];
    rewrite Hq;
    try (eexists _, _, q; repeat split; try done; by auto);
    destruct (insert_entry_cases (index, p) q) as [[-> Hfull]|[-> Hfull]];
    try (eexists _, _, q; repeat split; try done; by auto);
    (eexists _, _, _; repeat split; try done; by eauto).
Qed.

(** X5. A task of the detail stage hands over at most one entry, at its
    own index, and touches nothing else: the payload, the session
    attribute and the queue's [maxsize] are as before and the queue is as
    before or has the one entry more. When the task returns the entry is
    there; when it waits in [put] the queue was full and is unchanged. *)
Theorem getPagesInfo_emits_at_most_one index pmid sp q :
  result_queue sp = Some q ->
  exists o sp' q',
    getPagesInfo net index pmid sp = (o, sp')
    /\ data sp' = data sp /\ session sp' = session sp
    /\ result_queue sp' = Some q' /\ maxsize q' = maxsize q
    /\ (queue q' = queue q
        \/ exists p, queue q' = insert_entry (index, p) (queue q))
    /\ (o = Ret tt -> exists p, queue q' = insert_entry (index, p) (queue q))
    /\ (o = Blocked -> queue q' = queue q /\ full q = true).
Proof.
  intros Hq. unfold getPagesInfo.
  destruct (session sp) eqn:Hs;
    destruct (fetch_details _ _) as [[p|] pending]; cbn [result_queue send];
    rewrite Hq.
  all: try (eexists _, _, q; repeat split; (done || by auto)).
  all: destruct (insert_entry_cases (index, p) q) as [[-> Hfull]|[-> Hfull]].
  all: try (eexists _, _, q; repeat split; (done || by auto)).
  all: eexists _, _, _; repeat split; try done; cbn [queue]; eauto.
  all: by destruct pending.
Qed.

Lemma getPagesInfo_frame index pmid sp q o sp' :
  result_queue sp = Some q ->
  getPagesInfo net index pmid sp = (o, sp') ->
  data sp' = data sp /\ session sp' = session sp
  /\ exists q', result_queue sp' = Some q' /\ maxsize q' = maxsize q
       /\ (Sorted index_le (queue q) -> Sorted index_le (queue q'))
       /\ (length (queue q') <= S (length (queue q)))%nat.
Proof.
  intros Hq Hrun.
  destruct (getPagesInfo_emits_at_most_one_aux index pmid sp q Hq)
    as (o1 & sp1 & q' & Hrun1 & Hd & Hs & Hq' & Hm & Hqueue).
  rewrite Hrun in Hrun1. injection Hrun1 as <- <-.
  split; [done|]. split; [done|]. exists q'. split; [done|]. split; [done|].
  destruct Hqueue as [->|[p ->]].
  - split; [done|lia].
  - split; [apply insert_entry_Sorted|]. rewrite length_insert_entry. lia.
Qed.

End Frames.

Section StageFrames.

Context `{Utils}.
Variable net : Net.

(** Whatever the tasks do and in whatever order: the stage keeps the
    queue in rank order, adds at most one entry per task and leaves the
    payload, the session attribute and [maxsize] alone. *)
Lemma gather_go_frame pick n : forall pending sp q o sp',
  result_queue sp = Some q ->
  gather_go pick net n pending sp = (o, sp') ->
  data sp' = data sp /\ session sp' = session sp
  /\ exists q', result_queue sp' = Some q' /\ maxsize q' = maxsize q
       /\ (Sorted index_le (queue q) -> Sorted index_le (queue q'))
       /\ (length (queue q') <= length (queue q) + n)%nat.
Proof.
  induction n as [|n IH]; intros pending sp q o sp' Hq; cbn [gather_go].
  - intros [= <- <-]. repeat split. exists q. repeat split; [done..|lia].
  - destruct (pending !! _) as [[index pmid]|].
    2:{ intros [= <- <-]. repeat split. exists q. repeat split; [done..|lia]. }
    destruct (getPagesInfo net index pmid sp) as [o1 sp1] eqn:Htask.
    destruct (getPagesInfo_frame net index pmid sp q o1 sp1 Hq Htask)
      as (Hd1 & Hs1 & q1 & Hq1 & Hm1 & Hsorted1 & Hlen1).
    destruct o1 as [[]|e|].
    + intros Hrest.
      destruct (IH _ _ _ _ _ Hq1 Hrest)
        as (Hd2 & Hs2 & q2 & Hq2 & Hm2 & Hsorted2 & Hlen2).
      split; [congruence|]. split; [congruence|]. exists q2.
      split; [done|]. split; [congruence|]. split; [auto|lia].
    + intros [= <- <-]. split; [done|]. split; [done|]. exists q1.
      split; [done|]. split; [done|]. split; [done|lia].
    + intros [= <- <-]. split; [done|]. split; [done|]. exists q1.
      split; [done|]. split; [done|]. split; [done|lia].
Qed.

(** The loop of [getPMIDs] keeps the queue in rank order too: it only
    ever adds the "not found" row, at index 0. *)
Lemma fetch_pages_queue num fuel : forall acc sp q o l sp',
  result_queue sp = Some q ->
  fetch_pages fuel net num acc sp = Some (o, l, sp') ->
  exists q', result_queue sp' = Some q'
    /\ (Sorted index_le (queue q) -> Sorted index_le (queue q'))
    /\ (length (queue q') <= S (length (queue q)))%nat.
Proof.
  induction fuel as [|fuel IH]; intros acc sp q o l sp' Hq; [done|].
  cbn [fetch_pages].
  assert (exists q', result_queue sp = Some q'
            /\ (Sorted index_le (queue q) -> Sorted index_le (queue q'))
            /\ (length (queue q') <= S (length (queue q)))%nat) as Hsame
    by (exists q; repeat split; [done..|lia]).
  destruct (data sp !! "page") as [[s|p]|]; [by intros [= _ _ <-]| |by intros [= _ _ <-]].
  destruct (p <=? (num - 1) / 200 + 1); [|by intros [= _ _ <-]].
  destruct (session sp); [by intros [= _ _ <-]| |by intros [= _ _ <-]].
  cbn [send data result_queue].
  destruct (get_search net (data sp)) as [e|bs]; [by intros [= _ _ <-]|].
  destruct (search_results_chunk bs) as [text|].
  - destruct (length (split text) =? 1)%nat; [by intros [= _ _ <-]|].
    intros Hrun. by apply (IH _ _ q) in Hrun.
  - rewrite Hq.
    destruct (insert_entry_cases (0%nat, not_found_row) (set_maxsize 1 q))
      as [[-> _]|[-> _]]; intros [= _ _ <-]; cbn [result_queue set_result_queue].
    + exists (set_maxsize 1 q). repeat split; [done..|cbn; lia].
    + eexists. split; [done|]. cbn [queue set_maxsize].
      split; [apply insert_entry_Sorted|]. rewrite length_insert_entry. lia.
Qed.

Variable pick : list (nat * string) -> nat.
Variable result_queue0 : PriorityQueue.
Variable num : Z.
Variable sp : Spider.

Lemma getAllPapers_run :
  exists o sp' q',
    getAllPapers pick net result_queue0 num sp = Some (o, sp')
    /\ session sp' = match o with
                     | Ret _ => SessionDeleted
                     | _ => SessionOpen
                     end
    /\ result_queue sp' = Some q'
    /\ (Sorted index_le (queue result_queue0) -> Sorted index_le (queue q'))
    /\ (Z.of_nat (length (queue q'))
        <= Z.of_nat (length (queue result_queue0)) + 1 + Z.max num 1).
Proof.
  rewrite getAllPapers_eq.
  destruct (getPMIDs_run net (Z.max num 1) (entered result_queue0 sp))
    as (body & l & sp1 & k & j & c & Htry & -> & _ & _ & _ & _ & _ & _ & Hs1).
  rewrite getPMIDs_try_eq in Htry.
  destruct (fetch_pages_queue _ _ _
              (set_data (listing_request (data (entered result_queue0 sp)) 1)
                 (entered result_queue0 sp))
              result_queue0 _ _ _ eq_refl Htry)
    as (q1 & Hq1 & Hsorted1 & Hlen1).
  cbn in Hs1.
  assert (Z.of_nat (length (slice_to l (Z.max num 1))) <= Z.max num 1) as Hcut.
  { rewrite slice_to_take, length_take by lia. lia. }
  destruct body as [[]|e|].
  2:{ (* an exception swallowed by the [finally] clause *)
      destruct (gather pick net _ sp1) as [o2 sp2] eqn:Hstage.
      unfold gather in Hstage.
      destruct (gather_go_frame _ _ _ _ _ _ _ Hq1 Hstage)
        as (_ & Hs2 & q2 & Hq2 & _ & Hsorted2 & Hlen2).
      rewrite length_imap in Hlen2.
      destruct o2 as [[]|e2|]; eexists _, _, q2;
        (split; [done|]); cbn [session result_queue set_session];
        (split; [congruence|]); (split; [done|]); (split; [auto|lia]). }
  2:{ eexists _, _, q1. split; [done|]. split; [done|]. split; [done|].
      split; [auto|lia]. }
  destruct (gather pick net _ sp1) as [o2 sp2] eqn:Hstage.
  unfold gather in Hstage.
  destruct (gather_go_frame _ _ _ _ _ _ _ Hq1 Hstage)
    as (_ & Hs2 & q2 & Hq2 & _ & Hsorted2 & Hlen2).
  rewrite length_imap in Hlen2.
  destruct o2 as [[]|e2|]; eexists _, _, q2;
    (split; [done|]); cbn [session result_queue set_session];
    (split; [congruence|]); (split; [done|]); (split; [auto|lia]).
Qed.

(** X6. [getAllPapers] closes and deletes its session exactly when it
    returns: after a normal return the attribute [session] is gone, and
    when a task's exception ends the call (or the call is held on a full
    queue) the session is still there, open. *)
Theorem getAllPapers_session_after :
  exists o sp',
    getAllPapers pick net result_queue0 num sp = Some (o, sp')
    /\ session sp' = match o with
                     | Ret _ => SessionDeleted
                     | _ => SessionOpen
                     end.
Proof.
  destruct getAllPapers_run as (o & sp' & q' & Hrun & Hs & _).
  by exists o, sp'.
Qed.

(** X7. Whatever the network answers and in whatever order the tasks
    complete, [getAllPapers] leaves a queue that was in rank order in rank
    order (so that reading it out is reading by rank), and it adds at most
    [max(num, 1)] entries of papers plus the one "not found" row. *)
Theorem getAllPapers_keeps_rank_order :
  Sorted index_le (queue result_queue0) ->
  exists o sp' q',
    getAllPapers pick net result_queue0 num sp = Some (o, sp')
    /\ result_queue sp' = Some q'
    /\ Sorted index_le (queue q')
    /\ Z.of_nat (length (queue q'))
       <= Z.of_nat (length (queue result_queue0)) + 1 + Z.max num 1.
Proof.
  intros Hsorted.
  destruct getAllPapers_run as (o & sp' & q' & Hrun & _ & Hq & Hs & Hlen).
  exists o, sp', q'. auto.
Qed.

End StageFrames.

(** ** Runs of the detail stage and of the whole pipeline *)

Section StageRuns.

Context `{Utils}.
Variable net : Net.
Variable pick : list (nat * string) -> nat.

(** A stage whose tasks all complete asks for each paper's page once. *)
Lemma gather_go_requests n : forall pending sp q,
  length pending = n ->
  session sp = SessionOpen ->
  result_queue sp = Some q ->
  room q n ->
  Forall (fun t => completes net (snd t)) pending ->
  exists sp',
    gather_go pick net n pending sp = (Ret tt, sp')
    /\ sent sp' ≡ₚ sent sp ++ ((fun t => detail_request (snd t)) <$> pending).
Proof.
  induction n as [|n IH]; intros pending sp q Hlen Hs Hq Hroom Hall.
  - destruct pending; [|done]. exists sp. cbn. by rewrite app_nil_r.
  - cbn [gather_go].
    assert (pick pending mod length pending < length pending)%nat as Hk
      by (apply Nat.mod_upper_bound; lia).
    set (k := (pick pending mod length pending)%nat) in *. clearbody k.
    destruct (lookup_lt_is_Some_2 _ _ Hk) as [[index pmid] Ht].
    rewrite Ht.
    assert (completes net pmid) as Hdone
      by (by apply (proj1 (Forall_lookup _ _) Hall _ _ Ht)).
    rewrite (getPagesInfo_completes net index pmid sp q n) by done.
    destruct (put_room (index, paper_of net pmid) q n Hroom) as [_ Hroom'].
    edestruct (IH (delete k pending)) as (sp' & -> & Hsent);
      [ by rewrite length_delete, Hlen; [lia|eauto]
      | exact Hs | reflexivity | exact Hroom' | by apply Forall_delete | ].
    exists sp'. split; [done|]. rewrite Hsent. cbn [sent send set_result_queue].
    rewrite (delete_Permutation pending k _ Ht) at 2.
    by rewrite <- app_assoc.
Qed.


(** X8. A completed detail stage has asked for the page of each
    identifier exactly once, at [base_url + pmid]: the requests it has
    added to the trace are these addresses, one per position of the list,
    in some order. *)
Theorem stage_fetches_each_page_once pmids sp q :
  session sp = SessionOpen ->
  result_queue sp = Some q ->
  maxsize q <= 0 \/ Z.of_nat (length (queue q) + length pmids) <= maxsize q ->
  (forall pmid, pmid ∈ pmids -> completes net pmid) ->
  exists sp',
    gather pick net (imap (fun index pmid => (index, pmid)) pmids) sp = (Ret tt, sp')
    /\ sent sp' ≡ₚ sent sp ++ (detail_request <$> pmids).
Proof.
  intros Hs Hq Hroom Hall. unfold gather.
  destruct (gather_go_requests
              (length (imap (fun index pmid => (index, pmid)) pmids))
              (imap (fun index pmid => (index, pmid)) pmids) sp q)
    as (sp' & Hrun & Hsent); [done | done | done | by rewrite length_imap | |].
  { apply Forall_forall. intros t (i & pmid & -> & Hi)%elem_of_lookup_imap.
    apply Hall. by eapply list_elem_of_lookup_2. }
  exists sp'. split; [done|].
  replace (detail_request <$> pmids)
    with ((fun t : nat * string => detail_request (snd t))
          <$> imap (fun index pmid => (index, pmid)) pmids); [done|].
  rewrite fmap_imap, (imap_ext _ (const detail_request)) by done.
  apply imap_const.
Qed.


End StageRuns.

Section WholeRuns.

Context `{Utils}.
Variable net : Net.
Variable pick : list (nat * string) -> nat.

(** [getPMIDs] on a listing that holds enough identifiers, with the state
    it leaves. *)
Lemma getPMIDs_full_listing num sp n :
  1 <= num ->
  session sp = SessionOpen ->
  Z.of_nat (S n) = ceil_div_200 num ->
  (forall i, (i < n)%nat ->
     exists text, listing_text net (data sp) (1 + Z.of_nat i) = Some text
                  /\ length (split text) = 200%nat) ->
  (exists text, listing_text net (data sp) (1 + Z.of_nat n) = Some text
                /\ num - 200 * Z.of_nat n <= Z.of_nat (length (split text))) ->
  exists sp',
    getPMIDs net num sp
    = Some (Ret (take (Z.to_nat num) (ids_from net (data sp) 1 (S n))), sp')
    /\ length (take (Z.to_nat num) (ids_from net (data sp) 1 (S n))) = Z.to_nat num
    /\ result_queue sp' = result_queue sp
    /\ sent sp' = sent sp ++ requests_from (data sp) 1 (S n).
Proof.
  intros Hnum Hs Hk Hfull (text & Ht & Hlast).
  rewrite <- page_limit_ceil in Hk.
  assert (pages_go_on net (data sp) n) as Hgo.
  { intros i Hi. destruct (Hfull i Hi) as (t & Hti & Hl).
    exists t. split; [done|lia]. }
  assert (Z.to_nat num <= length (ids_from net (data sp) 1 (S n)))%nat as Hlen.
  { rewrite ids_from_snoc, length_app, (length_ids_from_full _ _ n 1 Hfull).
    unfold page_ids. rewrite Ht. lia. }
  destruct (decide (length (split text) = 1%nat)) as [Hone|Hmore].
  - eexists. rewrite (getPMIDs_single net num sp n text) by (done || lia).
    rewrite slice_to_take by lia. split; [done|].
    split; [by apply length_take_le|]. split; [done|].
    cbn [sent send advanced]. by rewrite requests_from_snoc, app_assoc.
  - eexists. rewrite (getPMIDs_all_pages net num sp (S n)); [| done | lia |].
    + rewrite slice_to_take by lia. split; [done|].
      split; [by apply length_take_le|]. done.
    + intros i Hi. destruct (decide (i = n)) as [->|Hne]; [by eauto|].
      apply Hgo. lia.
Qed.

(** X10. The whole pipeline on a listing that holds enough identifiers:
    with an empty queue that has room for [N = max(num, 1)] entries, full
    listing pages up to the last one needed and detail tasks that all
    complete, [getAllPapers] returns; the queue then holds, in rank order,
    the records of the first [N] identifiers of the provider's order; the
    requests issued are the [ceil(N / 200)] listing pages followed by one
    request per paper; and the session is closed and deleted. *)
Theorem getAllPapers_ranked_results q num sp n :
  queue q = [] ->
  maxsize q <= 0 \/ Z.max num 1 <= maxsize q ->
  Z.of_nat (S n) = ceil_div_200 (Z.max num 1) ->
  (forall i, (i < n)%nat ->
     exists text, listing_text net (data sp) (1 + Z.of_nat i) = Some text
                  /\ length (split text) = 200%nat) ->
  (exists text, listing_text net (data sp) (1 + Z.of_nat n) = Some text
                /\ Z.max num 1 - 200 * Z.of_nat n
                   <= Z.of_nat (length (split text))) ->
  (forall pmid,
     pmid ∈ take (Z.to_nat (Z.max num 1)) (ids_from net (data sp) 1 (S n)) ->
     completes net pmid) ->
  exists sp',
    getAllPapers pick net q num sp = Some (Ret tt, sp')
    /\ result_queue sp'
       = Some {| maxsize := maxsize q;
                 queue := imap (fun index pmid => (index, paper_of net pmid))
                            (take (Z.to_nat (Z.max num 1))
                               (ids_from net (data sp) 1 (S n))) |}
    /\ length (take (Z.to_nat (Z.max num 1)) (ids_from net (data sp) 1 (S n)))
       = Z.to_nat (Z.max num 1)
    /\ sent sp'
       ≡ₚ sent sp ++ requests_from (data sp) 1 (S n)
          ++ (detail_request
              <$> take (Z.to_nat (Z.max num 1)) (ids_from net (data sp) 1 (S n)))
    /\ session sp' = SessionDeleted.
Proof.
  intros Hempty Hroom Hk Hfull Hlast Hall.
  destruct (getPMIDs_full_listing (Z.max num 1) (entered q sp) n)
    as (sp1 & Hids & Hlen & Hq1 & Hsent1); [lia | done | done | done | done |].
  cbn [entered data set_session set_result_queue result_queue sent] in *.
  set (pmids := take (Z.to_nat (Z.max num 1)) (ids_from net (data sp) 1 (S n))) in *.
  assert (session sp1 = SessionOpen) as Hs1
    by (by rewrite (getPMIDs_session _ _ _ _ _ Hids)).
  assert (room q (length pmids)) as Hroom'
    by (unfold room; rewrite Hempty, Hlen; cbn; lia).
  destruct (stage_completes net pick pmids sp1 q Hs1 Hq1 Hempty Hroom' Hall)
    as (sp2 & Hrun & Hq2 & _).
  destruct (gather_go_requests net pick
              (length (imap (fun index pmid => (index, pmid)) pmids))
              (imap (fun index pmid => (index, pmid)) pmids) sp1 q)
    as (sp2' & Hrun' & Hsent2); [done | done | done | by rewrite length_imap | |].
  { apply Forall_forall. intros t (i & pmid & -> & Hi)%elem_of_lookup_imap.
    apply Hall. by eapply list_elem_of_lookup_2. }
  unfold gather in Hrun. rewrite Hrun in Hrun'. injection Hrun' as <-.
  exists (set_session SessionDeleted sp2).
  rewrite getAllPapers_eq, Hids. unfold gather. rewrite Hrun.
  split; [done|]. split; [done|]. split; [done|]. split; [|done].
  cbn [sent set_session]. rewrite Hsent2, Hsent1, <- app_assoc. do 2 f_equiv.
  rewrite fmap_imap, (imap_ext _ (const detail_request)) by done.
  by rewrite imap_const.
Qed.




End WholeRuns.

(** ** How the calls compose; counts and keys *)

Section Composition.

Context `{Utils}.
Variable net : Net.
Variable num : Z.

(** The loop only appends to the trace of requests, and does not look at
    it: started with another trace it does the same and appends the
    same. *)
Lemma fetch_pages_with_sent fuel : forall acc sp trace,
  fetch_pages fuel net num acc (with_sent trace sp)
  = match fetch_pages fuel net num acc (with_sent [] sp) with
    | Some (o, l, sp') => Some (o, l, with_sent (trace ++ sent sp') sp')
    | None => None
    end.
Proof.
  induction fuel as [|fuel IH]; intros acc sp trace; [done|].
  cbn [fetch_pages with_sent data session result_queue send sent set_data
       set_result_queue app].
  destruct (data sp !! "page") as [[s|p]|]; [by rewrite app_nil_r| |by rewrite app_nil_r].
  destruct (p <=? (num - 1) / 200 + 1); [|by rewrite app_nil_r].
  destruct (session sp); [by rewrite app_nil_r| |by rewrite app_nil_r].
  destruct (get_search net (data sp)) as [e|bs]; [done|].
  destruct (search_results_chunk bs) as [text|].
  - destruct (length (split text) =? 1)%nat; [done|].
    pose proof (IH (acc ++ split text)
                  (set_data (<["page" := Int (p + 1)]> (data sp)) sp)) as IH'.
    unfold with_sent, set_data, send in *. cbn in *.
    rewrite (IH' (trace ++ [GetSearch (data sp)])), (IH' [GetSearch (data sp)]).
    destruct (fetch_pages fuel _ _ _ _) as [[[o l] sp']|]; [|done].
    cbn. by rewrite <- app_assoc.
  - destruct (result_queue sp) as [q|]; [|done]. by destruct (put _ _).
Qed.

Lemma listing_request_format d v p :
  listing_request (<["format" := v]> d) p = listing_request d p.
Proof.
  unfold listing_request. f_equal.
  rewrite (insert_insert_ne _ "size" "format") by done.
  by rewrite insert_insert_eq.
Qed.

(** X12. Asking for the total first does not change what [getPMIDs]
    does: after [getTotalPaperNum] (whatever it got, from whatever
    server) [getPMIDs] ends the same way, with the same identifiers, the
    same queue, the same payload, and appends the same listing requests
    to the trace as it does without that call. *)
Theorem getPMIDs_after_getTotalPaperNum net0 sp :
  exists o sp1 new,
    getPMIDs net num sp = Some (o, sp1)
    /\ sent sp1 = sent sp ++ new
    /\ getPMIDs net num (snd (getTotalPaperNum net0 sp))
       = Some (o, with_sent (sent (snd (getTotalPaperNum net0 sp)) ++ new) sp1).
Proof.
  assert (exists o0 trace,
            getTotalPaperNum net0 sp
            = (o0, with_sent trace
                     (set_data (<["format" := Str "summary"]> (data sp)) sp)))
    as (o0 & trace & ->).
  { unfold getTotalPaperNum. cbn [send set_data data].
    destruct (get_search net0 _) as [[]|bs]; try by eexists _, _.
    destruct (single_result_redirect_message bs); [by eexists _, _|].
    destruct (results_amount bs) as [[text|]|]; by eexists _, _. }
  cbn [snd sent with_sent].
  rewrite !getPMIDs_eq. cbn [data with_sent set_data].
  rewrite listing_request_format.
  set (ready := set_data (listing_request (data sp) 1) sp).
  remember (S (Z.to_nat ((num - 1) / 200 + 1))) as fuel eqn:Hfuel.
  change (fetch_pages fuel net num [] _) with
    (fetch_pages fuel net num [] (with_sent trace ready)) at 2.
  replace (fetch_pages fuel net num [] ready)
    with (fetch_pages fuel net num [] (with_sent (sent sp) ready))
    by (by destruct sp).
  rewrite (fetch_pages_with_sent fuel [] ready (sent sp)),
    (fetch_pages_with_sent fuel [] ready trace).
  destruct (fetch_pages_total net num fuel [] (with_sent [] ready))
    as [[[body l] sp'] ->]; [lia | |].
  { subst fuel ready. cbn. intros p. rewrite listing_request_page.
    intros [= <-]. lia. }
  exists (match body with Blocked => Blocked | _ => Ret (slice_to l num) end),
    (with_sent (sent sp ++ sent sp') sp'), (sent sp').
  by destruct body.
Qed.


(** X13. The other way round the cursor of [getPMIDs] stays in the
    payload. When [getPMIDs] has issued the requests of the pages 1 to
    [k], its cursor (the page of the payload) stands at [1 + c], where [c]
    is [k] or [k - 1]; the request [getTotalPaperNum] sends after it is
    the payload [getPMIDs] has left, with the format changed to summary:
    it carries the size 200 and, as its page, that cursor, the page
    number the pagination stopped at (the cursor is not reset). *)
Theorem getTotalPaperNum_after_getPMIDs net0 sp :
  exists o sp1 (k c : nat) params,
    getPMIDs net num sp = Some (o, sp1)
    /\ sent sp1 = sent sp ++ requests_from (data sp) 1 k
    /\ (c <= k <= S c)%nat
    /\ data sp1 !! "page" = Some (Int (1 + Z.of_nat c))
    /\ sent (snd (getTotalPaperNum net0 sp1)) = sent sp1 ++ [GetSearch params]
    /\ params
       = <["format" := Str "summary"]> (listing_request (data sp) (1 + Z.of_nat c))
    /\ params !! "page" = data sp1 !! "page"
    /\ params !! "format" = Some (Str "summary")
    /\ params !! "size" = Some (Str "200")
    /\ params !! "term" = data sp !! "term".
Proof.
  destruct (getPMIDs_run net num sp)
    as (body & l & sp1 & k & j & c & _ & Hrun & Hsent & _ & Hdata & Hcj & Hkc & _).
  eexists _, sp1, k, c, (<["format" := Str "summary"]> (data sp1)).
  split; [exact Hrun|]. split; [exact Hsent|]. split; [lia|].
  split; [by rewrite Hdata, listing_request_page|]. split.
  - unfold getTotalPaperNum. cbn [send set_data data].
    destruct (get_search net0 _) as [[]|bs]; try done.
    destruct (single_result_redirect_message bs); [done|].
    by destruct (results_amount bs) as [[text|]|].
  - split; [by rewrite Hdata|].
    split; [by rewrite lookup_insert_ne by done|].
    rewrite Hdata. unfold listing_request.
    split; [by rewrite lookup_insert_eq|].
    split; [by rewrite !lookup_insert_ne, lookup_insert_eq by done|].
    by rewrite !lookup_insert_ne by done.
Qed.

End Composition.

Section Counts.

Lemma remove_char_count_text text :
  count_text text = true ->
  string_forall is_digit (remove_char "," text) = true.
Proof.
  unfold count_text. induction text as [|c text IH]; [done|].
  cbn [string_forall remove_char]. intros [Hc Htext]%andb_prop.
  destruct (Ascii.eqb_spec "," c) as [<-|Hne]; [by apply IH|].
  cbn [string_forall]. rewrite IH by done.
  by destruct (is_digit c).
Qed.

Lemma remove_char_digits text :
  string_forall is_digit text = true -> remove_char "," text = text.
Proof.
  induction text as [|c text IH]; [done|].
  cbn [string_forall remove_char]. intros [Hc Htext]%andb_prop.
  destruct (Ascii.eqb_spec "," c) as [<-|Hne]; [done|]. by rewrite IH.
Qed.

(** [replace] of the comma by the empty string keeps every other
    character, in its place. *)
Lemma remove_char_filter c s :
  list_ascii_of_string (remove_char c s)
  = filter (fun d : ascii => d <> c) (list_ascii_of_string s).
Proof.
  induction s as [|d s IH]; [done|]. cbn [remove_char list_ascii_of_string].
  destruct (Ascii.eqb_spec c d) as [<-|Hne].
  - by rewrite filter_cons_False by (by intros []).
  - rewrite filter_cons_True by congruence. cbn [list_ascii_of_string].
    by rewrite IH.
Qed.

(** X14. The total reported by the PubMed spider is the text of the
    results amount with its commas removed: between the two parts of its
    message [getTotalPaperNum] returns exactly the characters of that text
    that are no commas, all of them and in their order. So a count that
    reads as digits with commas between them is returned as these digits
    alone, and a count without commas as it is. *)
Theorem getTotalPaperNum_numeral net sp bs text :
  get_search net (<["format" := Str "summary"]> (data sp)) = Html bs ->
  single_result_redirect_message bs = false ->
  results_amount bs = Some (Some text) ->
  exists count,
    fst (getTotalPaperNum net sp) = Ret ("共找到" +:+ count +:+ "篇")
    /\ list_ascii_of_string count
       = filter (fun c : ascii => c <> ","%char) (list_ascii_of_string text)
    /\ (count_text text = true -> string_forall is_digit count = true)
    /\ (string_forall is_digit text = true -> count = text).
Proof.
  intros Hget Hsingle Hamount. exists (remove_char "," text).
  unfold getTotalPaperNum. cbn [send set_data data].
  rewrite Hget, Hsingle, Hamount.
  split; [done|]. split; [apply remove_char_filter|].
  split; [apply remove_char_count_text|apply remove_char_digits].
Qed.

(** X15. The total reported by the ACS spider is the text of the count
    element with its commas removed as well: exactly the characters of
    that text that are no commas, in their order (no message around
    them), so the digits alone for a count of digits and commas; a page
    without the count element makes it raise [AttributeError], and an
    exception of the fetch reaches the caller as it is, a timeout
    included. *)
Theorem ACS_getTotalPaperNum_numeral getHtml data :
  (forall bs text,
     getHtml data = Html bs ->
     ACS.result__count bs = Some (Some text) ->
     exists count,
       ACS.getTotalPaperNum getHtml data = Ret count
       /\ list_ascii_of_string count
          = filter (fun c : ascii => c <> ","%char) (list_ascii_of_string text)
       /\ (count_text text = true -> string_forall is_digit count = true)
       /\ (string_forall is_digit text = true -> count = text))
  /\ (forall bs,
        getHtml data = Html bs ->
        ACS.result__count bs = None ->
        ACS.getTotalPaperNum getHtml data = Raise AttributeError)
  /\ (forall e,
        getHtml data = Fails e ->
        ACS.getTotalPaperNum getHtml data = Raise e).
Proof.
  unfold ACS.getTotalPaperNum. split; [|split].
  - intros bs text -> ->. exists (remove_char "," text).
    split; [done|]. split; [apply remove_char_filter|].
    split; [apply remove_char_count_text|apply remove_char_digits].
  - by intros bs -> ->.
  - by intros e ->.
Qed.

(** X16. The payload of [parseData] has no key but term, sort and
    sort_order: the term is always there; sort is there, with the value
    date, exactly when the sorting starts with "日期"; sort_order is
    there, with the value asc, exactly when the sorting ends with "逆序";
    the author, the journal and the years are nowhere but in the term. *)
Theorem parseData_keys keyword start_year end_year author journal sorting :
  dom (parseData keyword start_year end_year author journal sorting)
  = {["term"]}
    ∪ (if startswith "日期" sorting then {["sort"]} else ∅)
    ∪ (if endswith "逆序" sorting then {["sort_order"]} else ∅)
  /\ parseData keyword start_year end_year author journal sorting !! "sort"
     = (if startswith "日期" sorting then Some (Str "date") else None)
  /\ parseData keyword start_year end_year author journal sorting !! "sort_order"
     = (if endswith "逆序" sorting then Some (Str "asc") else None).
Proof.
  unfold parseData.
  destruct (startswith _ sorting), (endswith _ sorting);
    rewrite ?dom_insert_L, dom_empty_L;
    (split; [set_solver|]);
    split; by rewrite ?lookup_insert_eq, ?lookup_insert_ne, ?lookup_insert_eq,
                ?lookup_insert_ne, ?lookup_empty by done.
Qed.

End Counts.

(** ** The menu *)

Section Stripping.

Lemma rstrip_cons c s :
  is_space c = false -> rstrip (String c s) = String c (rstrip s).
Proof. intros Hc. cbn [rstrip]. destruct (rstrip s); by rewrite ?Hc. Qed.

Lemma rstrip_idem s : rstrip (rstrip s) = rstrip s.
Proof.
  induction s as [|c s IH]; [done|]. cbn [rstrip].
  destruct (rstrip s) as [|c' r] eqn:Hr.
  - destruct (is_space c) eqn:Hc; [done|]. cbn. by rewrite Hc.
  - cbn [rstrip]. cbn [rstrip] in IH. by rewrite IH.
Qed.

Lemma lstrip_head s :
  lstrip s = EmptyString
  \/ exists c r, lstrip s = String c r /\ is_space c = false.
Proof.
  induction s as [|c s IH]; [by left|]. cbn [lstrip].
  destruct (is_space c) eqn:Hc; [done|]. right. by exists c, s.
Qed.

(** [strip] is idempotent. *)
Lemma strip_idem s : strip (strip s) = strip s.
Proof.
  unfold strip. destruct (lstrip_head s) as [->|(c & r & -> & Hc)]; [done|].
  rewrite rstrip_cons by done. cbn [lstrip]. rewrite Hc.
  by rewrite rstrip_cons, rstrip_idem by done.
Qed.

Lemma strip_marked s :
  startswith "10." s = true ->
  startswith "10." (strip s) = true
  /\ exists c r, strip s = String c r /\ is_space c = false.
Proof.
  unfold startswith. intros Hs.
  destruct s as [|c1 s]; [done|]. cbn [String.prefix] in Hs.
  destruct (ascii_dec "1" c1) as [<-|]; [|done].
  destruct s as [|c2 s]; [done|]. cbn [String.prefix] in Hs.
  destruct (ascii_dec "0" c2) as [<-|]; [|done].
  destruct s as [|c3 s]; [done|]. cbn [String.prefix] in Hs.
  destruct (ascii_dec "." c3) as [<-|]; [|done].
  unfold strip. cbn [lstrip]. change (is_space "1") with false. cbv iota.
  rewrite !rstrip_cons by done. split; [|by eauto].
  cbn [String.prefix]. repeat (destruct (ascii_dec _ _); [|done]).
  by destruct (rstrip s).
Qed.

(** What [rstrip] cuts off is white space, and what it leaves does not
    end in white space. *)
Lemma rstrip_ending s :
  exists ending,
    s = rstrip s +:+ ending /\ string_forall is_space ending = true.
Proof.
  induction s as [|c s (ending & Hs & Hsp)]; [by exists EmptyString|].
  cbn [rstrip]. destruct (rstrip s) as [|c' r] eqn:Hr.
  - rewrite append_nil_l in Hs. subst ending.
    destruct (is_space c) eqn:Hc.
    + exists (String c s). rewrite append_nil_l. split; [done|].
      cbn [string_forall]. by rewrite Hc, Hsp.
    + exists s. by rewrite append_String, append_nil_l.
  - exists ending. split; [|done]. rewrite append_String. by rewrite <- Hs.
Qed.

Lemma rstrip_last_char s c :
  last_char (rstrip s) = Some c -> is_space c = false.
Proof.
  induction s as [|d s IH]; [done|]. cbn [rstrip].
  destruct (rstrip s) as [|c' r] eqn:Hr.
  - destruct (is_space d) eqn:Hd; [done|]. cbn. by intros [= <-].
  - intros Hlast. by apply IH.
Qed.

Lemma last_char_cons c s : is_Some (last_char (String c s)).
Proof. revert c. induction s as [|d s IH]; intros c; [by eexists|]. apply (IH d). Qed.

Lemma ascii_text_app s t : ascii_text (s +:+ t) = true -> ascii_text s = true.
Proof.
  unfold ascii_text. induction s as [|c s IH]; [done|].
  rewrite append_String. cbn [string_forall].
  intros [-> Hrest]%andb_prop. by apply IH.
Qed.

(** A line that starts with "10." has nothing to strip on the left. *)
Lemma strip_marked_rstrip s : startswith "10." s = true -> strip s = rstrip s.
Proof.
  unfold startswith, strip. intros Hs.
  destruct s as [|c1 s]; [done|]. cbn [String.prefix] in Hs.
  destruct (ascii_dec "1" c1) as [<-|]; [|done]. done.
Qed.

(** The identifier of a line that starts with "10.": the line without the
    white space at its end. *)
Lemma strip_marked_parts line :
  startswith "10." line = true ->
  exists ending,
    line = strip line +:+ ending
    /\ string_forall is_space ending = true
    /\ exists c, last_char (strip line) = Some c /\ is_space c = false.
Proof.
  intros Hmark.
  destruct (strip_marked line Hmark) as [_ (c0 & r & Hid & _)].
  destruct (rstrip_ending line) as (ending & Hline & Hsp).
  rewrite <- (strip_marked_rstrip line Hmark) in Hline.
  exists ending. split; [done|]. split; [done|].
  destruct (last_char_cons c0 r) as [c Hc]. rewrite <- Hid in Hc.
  exists c. split; [done|]. apply (rstrip_last_char line).
  by rewrite <- (strip_marked_rstrip line Hmark).
Qed.

End Stripping.

Section DoiFileAll.

Import Menu.

Lemma load_dois_filters_and_strips_aux dois :
  load_dois dois []
  = (fun line => [Some (strip line); None; Some (strip line); None])
    <$> filter (fun line => startswith "10." line = true) dois.
Proof.
  induction dois as [|doi dois IH]; [done|]. cbn [load_dois].
  destruct (startswith "10." doi) eqn:Hdoi; cbn [negb].
  - rewrite filter_cons_True by done.
    rewrite load_dois_app, IH, strip_idem. done.
  - rewrite filter_cons_False by (by rewrite Hdoi). apply IH.
Qed.

(** X17. For a file whose lines that start with "10." are ASCII text
    (the other lines may hold anything), the loader keeps exactly the
    lines that start with "10.", in the order of the file, and turns each
    into the detail list [id, None, id, None] where [id] is
    [line.strip()]: the line without the white space at its end, that is,
    the line is [id] followed by white space only and [id] does not end
    in white space. So the number of detail lists is the number of such
    lines, and an empty file, or one without such a line, gives the empty
    list. *)
Theorem load_dois_filters_and_strips dois :
  (forall line, line ∈ dois -> startswith "10." line = true ->
     ascii_text line = true) ->
  load_dois dois []
  = (fun line => [Some (strip line); None; Some (strip line); None])
    <$> filter (fun line => startswith "10." line = true) dois
  /\ Forall2
       (fun line d =>
          exists id ending,
            line = id +:+ ending
            /\ string_forall is_space ending = true
            /\ (exists c, last_char id = Some c /\ is_space c = false)
            /\ d = [Some id; None; Some id; None])
       (filter (fun line => startswith "10." line = true) dois)
       (load_dois dois [])
  /\ length (load_dois dois [])
     = length (filter (fun line => startswith "10." line = true) dois)
  /\ (length (load_dois dois []) <= length dois)%nat.
Proof.
  intros _. rewrite load_dois_filters_and_strips_aux, length_fmap.
  split; [done|]. split; [|split; [done|apply length_filter]].
  apply Forall2_fmap_r, Forall_Forall2_diag, Forall_forall.
  intros line [Hmark _]%list_elem_of_filter.
  destruct (strip_marked_parts line Hmark) as (ending & Hline & Hsp & Hlast).
  by exists (strip line), ending.
Qed.

(** X18. For a file whose lines that start with "10." are ASCII text,
    every detail list the loader makes is well formed for the downloader:
    it has four cells, the second and the last empty, its title equal to
    its doi, and this identifier is a line of the file without the white
    space at its end (the line end): it starts with "10.", its last
    character is no white space, and what follows it in the line is
    white space only. *)
Theorem loaded_details_well_formed dois d :
  (forall line, line ∈ dois -> startswith "10." line = true ->
     ascii_text line = true) ->
  d ∈ load_dois dois [] ->
  exists line id ending,
    line ∈ dois
    /\ line = id +:+ ending
    /\ string_forall is_space ending = true
    /\ startswith "10." id = true
    /\ (exists c, last_char id = Some c /\ is_space c = false)
    /\ ascii_text id = true
    /\ id = strip line
    /\ strip id = id
    /\ d = [Some id; None; Some id; None]
    /\ detail_title d = Some id /\ detail_doi d = Some id.
Proof.
  intros Hascii. rewrite load_dois_filters_and_strips_aux.
  intros (line & -> & [Hmark Hin]%list_elem_of_filter)%list_elem_of_fmap.
  destruct (strip_marked line Hmark) as [Hstart _].
  destruct (strip_marked_parts line Hmark) as (ending & Hline & Hsp & Hlast).
  exists line, (strip line), ending.
  split; [done|]. split; [done|]. split; [done|]. split; [done|].
  split; [done|]. split.
  { apply (ascii_text_app _ ending). rewrite <- Hline. by apply Hascii. }
  split; [done|]. split; [apply strip_idem|]. done.
Qed.

(** X19. A file without a line that starts with "10." does not end in an
    empty download: [downloadAll] takes the empty list for no list, so the
    call does what the menu entry for downloading all search results
    does (it downloads the results of the last search, or says that there
    are none). *)
Theorem doi_file_without_identifiers_downloads_results
    main_frame target_dir monitor dois :
  (forall line, line ∈ dois -> startswith "10." line = false) ->
  downloadByDoiFile_effects main_frame target_dir monitor (Some dois)
  = downloadAll main_frame target_dir monitor None.
Proof.
  intros Hnone. unfold downloadByDoiFile_effects, downloadByDoiFile.
  rewrite load_dois_filters_and_strips_aux.
  replace (filter _ dois) with (@nil string); [done|].
  symmetry. induction dois as [|doi dois IH]; [done|].
  rewrite filter_cons_False
    by (rewrite (Hnone doi) by (by left); done).
  apply IH. intros line Hin. apply Hnone. by right.
Qed.

(** X20. Once [downloadAll] has a batch and a directory it always ends
    by showing that the download is over and stopping the progress bar,
    also when the monitoring raises; the queue it makes for the progress
    has exactly the size of the batch, the size it hands to the monitor;
    and a batch is only empty when it is the empty result of a search. *)
Theorem downloadAll_started main_frame target_dir monitor details effects o :
  downloadAll main_frame target_dir monitor details = (o, effects) ->
  SetTip "准备下载中..." ∈ effects ->
  exists batch,
    effects
    = [AskDirectory; SetTip "准备下载中...";
       StartDownload (scihub_url main_frame) batch (length batch) target_dir;
       Monitor (length batch); SetTip "下载结束"; BarStop]
    /\ o = match monitor with None => Ret tt | Some e => Raise e end
    /\ (details = Some batch \/ result main_frame = Some batch)
    /\ (batch = [] -> result main_frame = Some []).
Proof.
  intros Hrun Hin.
  exists (match details with
          | Some (d :: ds) => d :: ds
          | _ => match result main_frame with Some rs => rs | None => [] end
          end).
  revert Hrun Hin. unfold downloadAll.
  destruct details as [[|d ds]|]; destruct (result main_frame) as [rs|];
    destruct (truthy target_dir); intros [= <- <-] Hin;
    try (by repeat (apply elem_of_cons in Hin as [?|Hin]; [done|]);
            apply elem_of_nil in Hin).
  all: split; [reflexivity|]; split; [done|]; split; [by auto|].
  all: by intros ?; simplify_eq.
Qed.

End DoiFileAll.

(** ** Further statements at sample inputs *)

Section MoreSamples.

#[local] Existing Instance std_utils.

Local Ltac among H :=
  repeat (apply elem_of_cons in H as [->|H]); [..|by apply elem_of_nil in H].

(** The spider of [__main__] before any session is opened. *)
Lemma getPMIDs_nothing_asked_witness :
  (5 <= 0 \/ session main_spider <> SessionOpen)
  /\ exists sp',
       getPMIDs (sample_net [Some (chunk_of 3)]) 5 main_spider = Some (Ret [], sp')
       /\ sent sp' = sent main_spider
       /\ result_queue sp' = result_queue main_spider.
Proof.
  assert (5 <= 0 \/ session main_spider <> SessionOpen) as Hidle
    by (right; discriminate).
  split; [exact Hidle|].
  apply (getPMIDs_nothing_asked (sample_net [Some (chunk_of 3)]) 5 main_spider Hidle).
Defined.

Lemma getPagesInfo_emits_at_most_one_witness :
  result_queue sample_spider = Some sample_queue
  /\ exists o sp' q',
       getPagesInfo (sample_net []) 1 "2" sample_spider = (o, sp')
       /\ data sp' = data sample_spider /\ session sp' = session sample_spider
       /\ result_queue sp' = Some q' /\ maxsize q' = maxsize sample_queue
       /\ (queue q' = queue sample_queue
           \/ exists p, queue q' = insert_entry (1%nat, p) (queue sample_queue))
       /\ (o = Ret tt ->
           exists p, queue q' = insert_entry (1%nat, p) (queue sample_queue))
       /\ (o = Blocked -> queue q' = queue sample_queue /\ full sample_queue = true).
Proof.
  split; [reflexivity|].
  apply (getPagesInfo_emits_at_most_one (sample_net []) 1 "2" sample_spider
           sample_queue). reflexivity.
Defined.

(** A queue that already holds the entry of rank 5. *)
Lemma getAllPapers_keeps_rank_order_witness :
  Sorted index_le (queue {| maxsize := 0; queue := [(5%nat, not_found_row)] |})
  /\ exists o sp' q',
       getAllPapers last_first (sample_net [Some "1 2 3 4"])
         {| maxsize := 0; queue := [(5%nat, not_found_row)] |} 3 main_spider
       = Some (o, sp')
       /\ result_queue sp' = Some q'
       /\ Sorted index_le (queue q')
       /\ Z.of_nat (length (queue q'))
          <= Z.of_nat (length (queue {| maxsize := 0;
                                        queue := [(5%nat, not_found_row)] |}))
             + 1 + Z.max 3 1.
Proof.
  assert (Sorted index_le
            (queue {| maxsize := 0; queue := [(5%nat, not_found_row)] |}))
    as Hsorted by (repeat constructor).
  split; [exact Hsorted|].
  apply (getAllPapers_keeps_rank_order (sample_net [Some "1 2 3 4"]) last_first
           {| maxsize := 0; queue := [(5%nat, not_found_row)] |} 3 main_spider
           Hsorted).
Defined.

Lemma stage_fetches_each_page_once_witness :
  session sample_spider = SessionOpen
  /\ result_queue sample_spider = Some sample_queue
  /\ (forall pmid, pmid ∈ sample_pmids -> completes (sample_net []) pmid)
  /\ exists sp',
       gather last_first (sample_net [])
         (imap (fun index pmid => (index, pmid)) sample_pmids) sample_spider
       = (Ret tt, sp')
       /\ sent sp' ≡ₚ sent sample_spider ++ (detail_request <$> sample_pmids).
Proof.
  assert (forall pmid, pmid ∈ sample_pmids -> completes (sample_net []) pmid)
    as Hall by (intros pmid Hin; among Hin; reflexivity).
  split; [reflexivity|]. split; [reflexivity|]. split; [exact Hall|].
  apply (stage_fetches_each_page_once (sample_net []) last_first sample_pmids
           sample_spider sample_queue);
    [reflexivity | reflexivity | right; by vm_compute | exact Hall].
Defined.


(** Three papers asked for, four on the first listing page. *)
Lemma getAllPapers_ranked_results_witness :
  queue sample_queue = []
  /\ Z.of_nat 1 = ceil_div_200 (Z.max 3 1)
  /\ exists sp',
       getAllPapers last_first (sample_net [Some "1 2 3 4"]) sample_queue 3
         main_spider = Some (Ret tt, sp')
       /\ result_queue sp'
          = Some {| maxsize := maxsize sample_queue;
                    queue :=
                      imap (fun index pmid =>
                              (index, paper_of (sample_net [Some "1 2 3 4"]) pmid))
                        (take (Z.to_nat (Z.max 3 1))
                           (ids_from (sample_net [Some "1 2 3 4"])
                              (data main_spider) 1 1)) |}
       /\ length (take (Z.to_nat (Z.max 3 1))
                    (ids_from (sample_net [Some "1 2 3 4"]) (data main_spider) 1 1))
          = Z.to_nat (Z.max 3 1)
       /\ sent sp'
          ≡ₚ sent main_spider ++ requests_from (data main_spider) 1 1
             ++ (detail_request
                 <$> take (Z.to_nat (Z.max 3 1))
                       (ids_from (sample_net [Some "1 2 3 4"])
                          (data main_spider) 1 1))
       /\ session sp' = SessionDeleted.
Proof.
  split; [reflexivity|]. split; [by vm_compute|].
  apply (getAllPapers_ranked_results (sample_net [Some "1 2 3 4"]) last_first
           sample_queue 3 main_spider 0);
    [reflexivity | right; by vm_compute | by vm_compute | intros i Hi; lia | |].
  - exists "1 2 3 4". by vm_compute.
  - intros pmid Hin. vm_compute in Hin. among Hin; reflexivity.
Defined.

(** The same run, read out. *)
Example ranked_results_read_out :
  exists sp' q',
    getAllPapers last_first (sample_net [Some "1 2 3 4"]) sample_queue 3
      main_spider = Some (Ret tt, sp')
    /\ result_queue sp' = Some q'
    /\ (fun e => (fst e, title (snd e), web (snd e))) <$> read_out 3 q'
       = [(0%nat, "Genomeediting", "https://doi.org/10.1000/182");
          (1%nat, "Error", "https://pubmed.ncbi.nlm.nih.gov/2");
          (2%nat, "Genomeediting", "https://doi.org/10.1000/182")].
Proof.
  eexists _, _. split; [vm_compute; reflexivity|].
  split; [reflexivity|]. by vm_compute.
Qed.


Lemma getTotalPaperNum_numeral_witness :
  get_search counting_net (<["format" := Str "summary"]> (data main_spider))
  = Html {| single_result_redirect_message := false;
            results_amount := Some (Some "1,234,567");
            search_results_chunk := None |}
  /\ exists count,
       fst (getTotalPaperNum counting_net main_spider)
       = Ret ("共找到" +:+ count +:+ "篇")
       /\ list_ascii_of_string count
          = filter (fun c : ascii => c <> ","%char)
              (list_ascii_of_string "1,234,567")
       /\ (count_text "1,234,567" = true -> string_forall is_digit count = true)
       /\ (string_forall is_digit "1,234,567" = true -> count = "1,234,567").
Proof.
  split; [reflexivity|].
  apply (getTotalPaperNum_numeral counting_net main_spider
           {| single_result_redirect_message := false;
              results_amount := Some (Some "1,234,567");
              search_results_chunk := None |} "1,234,567");
    reflexivity.
Defined.

(** The same count, spelled out. *)
Example total_of_counting_net :
  fst (getTotalPaperNum counting_net main_spider) = Ret "共找到1234567篇".
Proof. by vm_compute. Qed.

(** The count request after a pagination that stopped at page 2 (a full
    first page, one identifier on the second): it asks for page 2 of the
    summary, 200 per page. *)
Example count_request_keeps_cursor :
  exists o sp1 params,
    getPMIDs (sample_net [Some (chunk_of 200); Some (chunk_of 1)]) 201
      sample_spider = Some (o, sp1)
    /\ data sp1 !! "page" = Some (Int 2)
    /\ sent (snd (getTotalPaperNum counting_net sp1))
       = sent sp1 ++ [GetSearch params]
    /\ params !! "page" = Some (Int 2)
    /\ params !! "size" = Some (Str "200")
    /\ params !! "format" = Some (Str "summary").
Proof. eexists _, _, _. repeat split; by vm_compute. Qed.

Lemma load_dois_filters_and_strips_witness :
  (forall line, line ∈ (line_text <$> sample_file) ->
     startswith "10." line = true -> ascii_text line = true)
  /\ Menu.load_dois (line_text <$> sample_file) []
     = (fun line => [Some (strip line); None; Some (strip line); None])
       <$> filter (fun line => startswith "10." line = true)
             (line_text <$> sample_file)
  /\ Forall2
       (fun line d =>
          exists id ending,
            line = id +:+ ending
            /\ string_forall is_space ending = true
            /\ (exists c, last_char id = Some c /\ is_space c = false)
            /\ d = [Some id; None; Some id; None])
       (filter (fun line => startswith "10." line = true)
          (line_text <$> sample_file))
       (Menu.load_dois (line_text <$> sample_file) [])
  /\ length (Menu.load_dois (line_text <$> sample_file) [])
     = length (filter (fun line => startswith "10." line = true)
                 (line_text <$> sample_file))
  /\ (length (Menu.load_dois (line_text <$> sample_file) [])
      <= length (line_text <$> sample_file))%nat.
Proof.
  assert (forall line, line ∈ (line_text <$> sample_file) ->
            startswith "10." line = true -> ascii_text line = true) as Hascii
    by (intros line Hin _; vm_compute in Hin; among Hin; reflexivity).
  split; [exact Hascii|].
  apply (load_dois_filters_and_strips (line_text <$> sample_file) Hascii).
Defined.

Lemma loaded_details_well_formed_witness :
  (forall line, line ∈ (line_text <$> sample_file) ->
     startswith "10." line = true -> ascii_text line = true)
  /\ [Some "10.1038/nphys1170"; None; Some "10.1038/nphys1170"; None]
       ∈ Menu.load_dois (line_text <$> sample_file) []
  /\ exists line id ending,
       line ∈ (line_text <$> sample_file)
       /\ line = id +:+ ending
       /\ string_forall is_space ending = true
       /\ startswith "10." id = true
       /\ (exists c, last_char id = Some c /\ is_space c = false)
       /\ ascii_text id = true
       /\ id = strip line
       /\ strip id = id
       /\ [Some "10.1038/nphys1170"; None; Some "10.1038/nphys1170"; None]
          = [Some id; None; Some id; None]
       /\ Menu.detail_title
            [Some "10.1038/nphys1170"; None; Some "10.1038/nphys1170"; None]
          = Some id
       /\ Menu.detail_doi
            [Some "10.1038/nphys1170"; None; Some "10.1038/nphys1170"; None]
          = Some id.
Proof.
  assert (forall line, line ∈ (line_text <$> sample_file) ->
            startswith "10." line = true -> ascii_text line = true) as Hascii
    by (intros line Hin _; vm_compute in Hin; among Hin; reflexivity).
  assert ([Some "10.1038/nphys1170"; None; Some "10.1038/nphys1170"; None]
            ∈ Menu.load_dois (line_text <$> sample_file) []) as Hin
    by (vm_compute; right; left).
  split; [exact Hascii|]. split; [exact Hin|].
  apply (loaded_details_well_formed (line_text <$> sample_file) _ Hascii Hin).
Defined.

Lemma doi_file_without_identifiers_downloads_results_witness :
  (forall line, line ∈ notes_file -> startswith "10." line = false)
  /\ Menu.downloadByDoiFile_effects sample_frame "/tmp/papers" None (Some notes_file)
     = Menu.downloadAll sample_frame "/tmp/papers" None None.
Proof.
  assert (forall line, line ∈ notes_file -> startswith "10." line = false)
    as Hnone by (intros line Hin; among Hin; reflexivity).
  split; [exact Hnone|].
  apply (doi_file_without_identifiers_downloads_results sample_frame
           "/tmp/papers" None notes_file Hnone).
Defined.

(** The same call, spelled out: the result of the search is downloaded. *)
Example notes_file_downloads_search_result :
  exists batch,
    Menu.result sample_frame = Some batch
    /\ snd (Menu.downloadByDoiFile_effects sample_frame "/tmp/papers" None
              (Some notes_file))
       = [Menu.AskDirectory; Menu.SetTip "准备下载中...";
          Menu.StartDownload "https://sci-hub.se" batch 1 "/tmp/papers";
          Menu.Monitor 1; Menu.SetTip "下载结束"; Menu.BarStop].
Proof. eexists. split; reflexivity. Qed.

(** A download whose monitoring raises. *)
Lemma downloadAll_started_witness :
  Menu.SetTip "准备下载中..."
    ∈ snd (Menu.downloadAll sample_frame "/tmp/papers" (Some TimeoutError) None)
  /\ exists batch,
       snd (Menu.downloadAll sample_frame "/tmp/papers" (Some TimeoutError) None)
       = [Menu.AskDirectory; Menu.SetTip "准备下载中...";
          Menu.StartDownload (Menu.scihub_url sample_frame) batch (length batch)
            "/tmp/papers";
          Menu.Monitor (length batch); Menu.SetTip "下载结束"; Menu.BarStop]
       /\ fst (Menu.downloadAll sample_frame "/tmp/papers" (Some TimeoutError) None)
          = match Some TimeoutError with None => Ret tt | Some e => Raise e end
       /\ (None = Some batch \/ Menu.result sample_frame = Some batch)
       /\ (batch = [] -> Menu.result sample_frame = Some []).
Proof.
  assert (Menu.SetTip "准备下载中..."
            ∈ snd (Menu.downloadAll sample_frame "/tmp/papers"
                     (Some TimeoutError) None)) as Hin
    by (vm_compute; right; left).
  split; [exact Hin|].
  apply (downloadAll_started sample_frame "/tmp/papers" (Some TimeoutError) None
           _ _ (surjective_pairing _) Hin).
Defined.

End MoreSamples.
